(** * basecouch: a CouchDB facade over a Couchbase bucket

    Shallow embedding of [database.go] and [rest.go].

    - Go strings are byte strings: [string] of [ascii].
    - [interface{}] values decoded from JSON are the inductive [JSON];
      [Body] (Go's [map[string]interface{}]) is a [gmap string JSON].
    - A Go [error] is [option error]; a function that panics yields
      [Panic].
    - Calls that leave the package (the bucket client, the HTTP response
      writer, encoding/json, the revision engine of the sibling file)
      are nodes of a program tree [Prog]; a [handler] answers them, and
      [run] records the calls that were made.  [log.Printf] calls are
      left out. *)

From Stdlib Require Import ZArith QArith String Ascii List Bool Lia DecimalString.
From stdpp Require Import gmap strings list.

Set Warnings "-register-all".
Local Open Scope string_scope.
Local Open Scope Z_scope.

(** ** Values *)

(** What [encoding/json] produces when it decodes into [interface{}]:
    numbers are [float64] there, here the rational they denote. *)
Inductive JSON : Type :=
| JNull
| JBool (b : bool)
| JNum (q : Q)
| JStr (s : string)
| JArr (l : list JSON)
| JObj (m : gmap string JSON).

Abbreviation Body := (gmap string JSON).

(** The three kinds of error value the package tells apart
    (the type switch of [ErrorAsHTTPStatus]). *)
Inductive error : Type :=
| HTTPError (Status : Z) (Message : string)
| MCResponse (Status : Z)
| OtherError (text : string).

(** [(T, error)] results. *)
Inductive result (A : Type) : Type :=
| Ok (a : A)
| Fail (e : error).
Arguments Ok {A} a.
Arguments Fail {A} e.

(** A pure computation that may panic. *)
Inductive outcome (A : Type) : Type :=
| Done (a : A)
| Panicked (msg : string).
Arguments Done {A} a.
Arguments Panicked {A} msg.

Definition obind {A B} (o : outcome A) (f : A -> outcome B) : outcome B :=
  match o with
  | Done a => f a
  | Panicked m => Panicked m
  end.

Fixpoint traverse {A B} (f : A -> outcome B) (l : list A) : outcome (list B) :=
  match l with
  | [] => Done []
  | x :: l' => obind (f x) (fun y => obind (traverse f l') (fun ys => Done (y :: ys)))
  end.

(** net/http and gomemcached constants. *)
Definition StatusOK : Z := 200.
Definition StatusCreated : Z := 201.
Definition StatusBadRequest : Z := 400.
Definition StatusNotFound : Z := 404.
Definition StatusNotAcceptable : Z := 406.
Definition StatusConflict : Z := 409.
Definition StatusPreconditionFailed : Z := 412.
Definition StatusInternalServerError : Z := 500.
Definition StatusBadGateway : Z := 502.
Definition KEY_ENOENT : Z := 1.
Definition KEY_EEXISTS : Z := 2.

(** [fmt]'s [%d]. *)
Definition fmt_d (n : Z) : string := NilZero.string_of_int (Z.to_int n).

(** What the Go runtime leaves to the implementation: the result of a
    float conversion whose value the target type cannot hold, and what
    [%s] prints for an operand that is not a string. *)
Record GoRuntime : Type := {
  int_of_float_oor : Q -> Z;
  uint64_of_float_oor : Q -> Z;
  fmt_s_other : JSON -> string
}.

(** Truncation toward zero. *)
Definition Qtrunc (q : Q) : Z := Z.quot (Qnum q) (Z.pos (Qden q)).

Definition uint64_max : Z := 2 ^ 64 - 1.
Definition wrap64 (n : Z) : Z := n mod 2 ^ 64.

(** [int(f)] for a [float64] [f] (64-bit [int]). *)
Definition goInt (rt : GoRuntime) (q : Q) : Z :=
  let t := Qtrunc q in
  if (- 2 ^ 63 <=? t) && (t <? 2 ^ 63) then t else int_of_float_oor rt q.

(** [uint64(f)] for a [float64] [f]. *)
Definition goUint64 (rt : GoRuntime) (q : Q) : Z :=
  let t := Qtrunc q in
  if (0 <=? t) && (t <=? uint64_max) then t else uint64_of_float_oor rt q.

(** [fmt]'s [%s] applied to an [interface{}]. *)
Definition fmt_s (rt : GoRuntime) (v : JSON) : string :=
  match v with
  | JStr s => s
  | _ => fmt_s_other rt v
  end.

(** ** Program trees *)

Section Programs.
Context {E : Type -> Type}.

Inductive Prog (A : Type) : Type :=
| Ret (a : A)
| Panic (msg : string)
| Vis {X : Type} (e : E X) (k : X -> Prog A).
Arguments Ret {A} a.
Arguments Panic {A} msg.
Arguments Vis {A X} e k.

Fixpoint bind {A B} (p : Prog A) (f : A -> Prog B) : Prog B :=
  match p with
  | Ret a => f a
  | Panic m => Panic m
  | Vis e k => Vis e (fun x => bind (k x) f)
  end.

Definition call {X} (e : E X) : Prog X := Vis e Ret.

Definition lift {A} (o : outcome A) : Prog A :=
  match o with
  | Done a => Ret a
  | Panicked m => Panic m
  end.

(** [for _, x := range l { f x }] *)
Fixpoint forEach {A} (f : A -> Prog unit) (l : list A) : Prog unit :=
  match l with
  | [] => Ret tt
  | x :: l' => bind (f x) (fun _ => forEach f l')
  end.

(** One call that left the package. *)
Record callrec : Type := Call { call_type : Type; call_op : E call_type }.

Definition handler (W : Type) : Type := forall X, E X -> W -> X * W.

(** Runs [p] against the world [w]: outcome, final world, calls made. *)
Fixpoint run {A W} (h : handler W) (p : Prog A) (w : W)
  : outcome A * W * list callrec :=
  match p with
  | Ret a => (Done a, w, [])
  | Panic m => (Panicked m, w, [])
  | Vis e k =>
      let '(x, w1) := h _ e w in
      let '(o, w2, t) := run h (k x) w1 in
      (o, w2, Call _ e :: t)
  end.
End Programs.

Arguments Prog E A : clear implicits.
Arguments Ret {E A} a.
Arguments Panic {E A} msg.
Arguments Vis {E A X} e k.
Arguments callrec E : clear implicits.
Arguments Call {E call_type} call_op.
Arguments handler E W : clear implicits.

Notation "'let*' x ':=' p 'in' k" := (bind p (fun x => k))
  (at level 10, x pattern, p at level 100, k at level 200).

(** Dynamic type assertions [v.(T)] without the comma-ok form, and
    indexing: each panics when it fails. *)
Definition asArr (v : JSON) : outcome (list JSON) :=
  match v with
  | JArr l => Done l
  | _ => Panicked "interface conversion: not []interface {}"
  end.

Definition asStr (v : JSON) : outcome string :=
  match v with
  | JStr s => Done s
  | _ => Panicked "interface conversion: not string"
  end.

Definition asNum (v : JSON) : outcome Q :=
  match v with
  | JNum q => Done q
  | _ => Panicked "interface conversion: not float64"
  end.

Definition asBool (v : JSON) : outcome bool :=
  match v with
  | JBool b => Done b
  | _ => Panicked "interface conversion: not bool"
  end.

Definition index (l : list JSON) (i : nat) : outcome JSON :=
  match l !! i with
  | Some v => Done v
  | None => Panicked "index out of range"
  end.

(** [m[k]] on a [map[string]interface{}]: the nil interface when absent,
    which no assertion accepts and [JNull] stands for. *)
Definition mapIndex (m : Body) (k : string) : JSON :=
  match m !! k with
  | Some v => v
  | None => JNull
  end.

(** ** database.go *)

(** *** Database names *)

(** The character class of [kDBNameMatch], "[-%+()$_a-z0-9]+". *)
Definition kDBNameClass (c : ascii) : bool :=
  let n := N_of_ascii c in
  existsb (Ascii.eqb c) (list_ascii_of_string "-%+()$_")
  || ((97 <=? n)%N && (n <=? 122)%N)
  || ((48 <=? n)%N && (n <=? 57)%N).

(** Length of the run of class characters at the head of [s]: the
    longest match of the pattern that starts at offset 0. *)
Fixpoint classRun (s : string) : nat :=
  match s with
  | String c s' => if kDBNameClass c then S (classRun s') else O
  | EmptyString => O
  end.

Definition matchesAt (s : string) : bool := negb (Nat.eqb (classRun s) 0).

(** [kDBNameMatch.MatchString]: whether [s] contains a match, at any
    offset (the pattern has no anchors). *)
Fixpoint MatchString (s : string) : bool :=
  matchesAt s ||
  match s with
  | String _ s' => MatchString s'
  | EmptyString => false
  end.

Definition dbInternalDocName (dbName : string) : string :=
  if negb (MatchString dbName) then "" else "cdb:" +:+ dbName.

(** *** The bucket and the handle *)

Record Database : Type := { Name : string; DocPrefix : string }.

Record ViewRow : Type := { RowID : string; Key : JSON; Value : JSON }.

(** The calls [database.go] makes outside itself: the methods of
    [*couchbase.Bucket], with the arguments as passed, and [createUUID]. *)
Inductive BucketE : Type -> Type :=
| Bucket_Get (k : string) : BucketE (result Database)
| Bucket_Set (k : string) (exp : Z) (v : Database) : BucketE (option error)
| Bucket_Delete (k : string) : BucketE (option error)
| Bucket_Incr (k : string) (amt def exp : Z) : BucketE (Z * option error)
| Bucket_View (ddoc name : string) (params : Body) : BucketE (result (list ViewRow))
| createUUID : BucketE string.

Abbreviation DB := (Prog BucketE).

Definition GetDatabase (name : string) : DB (result Database) :=
  let docname := dbInternalDocName name in
  if decide (docname = "") then
    Ret (Fail (HTTPError 400 "Illegal database name"))
  else
    let* r := call (Bucket_Get docname) in
    match r with
    | Fail err => Ret (Fail err)
    | Ok db => Ret (Ok db)
    end.

Definition CreateDatabase (name : string) : DB (result Database) :=
  let docname := dbInternalDocName name in
  if decide (docname = "") then
    Ret (Fail (HTTPError 400 "Illegal database name"))
  else
    let* r := call (Bucket_Get docname) in
    match r with
    | Ok _ => Ret (Fail (HTTPError 412 "Database already exists"))
    | Fail _ =>
        let* uuid := call createUUID in
        let db := {| Name := name;
                     DocPrefix := "doc:" +:+ name +:+ "/" +:+ uuid +:+ ":" |} in
        let* err := call (Bucket_Set docname 0 db) in
        match err with
        | Some e => Ret (Fail e)
        | None => Ret (Ok db)
        end
    end.

Definition realDocID (db : Database) (docid : string) : string :=
  DocPrefix db +:+ docid.

(** [db.DocPrefix[4 : len(db.DocPrefix)-1]]; the slice expression panics
    unless [4 <= len-1]. *)
Definition UUID (db : Database) : outcome string :=
  let n := String.length (DocPrefix db) in
  if (n <? 5)%nat then Panicked "slice bounds out of range"
  else Done (substring 4 (n - 5) (DocPrefix db)).

(** *** The view map functions of [installViews] *)

Fixpoint splitOn (sep : ascii) (s : string) : list string :=
  match s with
  | EmptyString => [""]
  | String c s' =>
      if Ascii.eqb c sep then "" :: splitOn sep s'
      else match splitOn sep s' with
           | p :: ps => String c p :: ps
           | [] => [String c ""]
           end
  end.

(** JavaScript's [id.split(":", 3)]: every piece between colons, cut
    off after the third one. *)
Definition jsSplit3 (id : string) : list string := take 3 (splitOn ":" id).

(** [v.k] in JavaScript for a JSON value [v] other than null;
    [None] is [undefined]. *)
Definition jsProp (v : JSON) (k : string) : option JSON :=
  match v with
  | JObj m => m !! k
  | _ => None
  end.

Definition jsTruthy (v : option JSON) : bool :=
  match v with
  | None | Some JNull => false
  | Some (JBool b) => b
  | Some (JNum q) => negb (Qeq_bool q 0)
  | Some (JStr s) => negb (String.eqb s "")
  | Some (JArr _) | Some (JObj _) => true
  end.

(** An [undefined] array element is serialised as null. *)
Definition jsElem (v : option JSON) : JSON := default JNull v.

(** [alldocs_map]: the row emitted for the record stored under [id],
    if any. *)
Definition alldocs_map (doc : JSON) (id : string) : option (JSON * JSON) :=
  match jsSplit3 id with
  | [p0; p1; p2] =>
      if negb (String.eqb p0 "doc") then None
      else Some (JArr [JStr p1; JStr p2], JNull)
  | _ => None
  end.

(** [changes_map]; a property access on null or [undefined] throws, and
    a map function that throws emits nothing.  JavaScript holds
    [doc.sequence] as a double; it is handed on here as the number it
    is, which is what the code does for the numbers that are doubles,
    every integer of magnitude up to 2^53 among them. *)
Definition changes_map (doc : JSON) (id : string) : option (JSON * JSON) :=
  match doc with
  | JNull => None
  | _ =>
    match jsProp doc "sequence" with
    | None => None
    | Some sequence =>
      match jsSplit3 id with
      | [p0; p1; p2] =>
          if negb (String.eqb p0 "doc") then None
          else
            match jsProp doc "current" with
            | None | Some JNull => None
            | Some current =>
                let value := [jsElem (jsProp current "_id");
                              jsElem (jsProp current "_rev")] in
                let value :=
                  if jsTruthy (jsProp current "_deleted")
                  then (value ++ [JBool true])%list else value in
                Some (JArr [JStr p1; sequence], JArr value)
            end
      | _ => None
      end
    end
  end.

(** *** All documents *)

Definition allDocIDsOpts (db : Database) (reduce : bool) : outcome Body :=
  obind (UUID db) (fun uuid =>
  let startkey := JArr [JStr uuid] in
  let endkey := JArr [JStr uuid; JObj ∅] in
  Done (<["startkey" := startkey]>
        (<["endkey" := endkey]> {["reduce" := JBool reduce]}))).

(** [vres.Rows[0].Value.(float64)] converted to [int]; -1 on a view error. *)
Definition DocCount (rt : GoRuntime) (db : Database) : DB Z :=
  let* opts := lift (allDocIDsOpts db true) in
  let* r := call (Bucket_View "couchdb" "all_docs" opts) in
  match r with
  | Fail _ => Ret (-1)
  | Ok rows =>
      let* row := lift (match rows with
                        | row :: _ => Done row
                        | [] => Panicked "index out of range"
                        end) in
      let* v := lift (asNum (Value row)) in
      Ret (goInt rt v)
  end.

Definition AllDocIDs (db : Database) : DB (result (list string)) :=
  let* opts := lift (allDocIDsOpts db false) in
  let* r := call (Bucket_View "couchdb" "all_docs" opts) in
  match r with
  | Fail err => Ret (Fail err)
  | Ok rows =>
      let* docids := lift (traverse (fun row =>
                        obind (asArr (Key row)) (fun key =>
                        obind (index key 1) asStr)) rows) in
      Ret (Ok docids)
  end.

(** *** Sequences *)

Definition sequenceDocID (db : Database) : string :=
  dbInternalDocName (Name db) +:+ ":nextsequence".

Definition LastSequence (db : Database) : DB (Z * option error) :=
  call (Bucket_Incr (sequenceDocID db) 0 0 0).

Definition generateSequence (db : Database) : DB (Z * option error) :=
  call (Bucket_Incr (sequenceDocID db) 1 1 0).

(** *** Deleting a database *)

Definition Delete (db : Database) : DB (option error) :=
  let* r := AllDocIDs db in
  match r with
  | Fail err => Ret (Some err)
  | Ok docIDs =>
      let* err := call (Bucket_Delete (dbInternalDocName (Name db))) in
      match err with
      | Some e => Ret (Some e)
      | None =>
          let* _ := call (Bucket_Delete (sequenceDocID db)) in
          let* _ := forEach (fun docID =>
                      let* _ := call (Bucket_Delete docID) in Ret tt) docIDs in
          Ret None
      end
  end.

(** *** Changes *)

Record ChangesOptions : Type := { Since : Z; Limit : Z; Descending : bool }.

Abbreviation ChangeRev := (gmap string string).

Record ChangeEntry : Type := {
  Seq : Z;
  ID : string;
  Changes : list ChangeRev;
  Deleted : bool
}.

(** The [opts] that [GetChanges] builds; [options.Since + 1] is a
    [uint64] addition. *)
Definition GetChanges_opts (uuid : string) (options : ChangesOptions) : Body :=
  let startkey := JArr [JStr uuid; JNum (inject_Z (wrap64 (Since options + 1)))] in
  let endkey := JArr [JStr uuid; JObj ∅] in
  let opts := <["startkey" := startkey]>
              (<["endkey" := endkey]>
               {["descending" := JBool (Descending options)]}) in
  if 0 <? Limit options
  then <["limit" := JNum (inject_Z (Limit options))]> opts
  else opts.

(** The body of the loop over [vres.Rows]. *)
Definition GetChanges_entry (rt : GoRuntime) (row : ViewRow) : outcome ChangeEntry :=
  obind (asArr (Key row)) (fun key =>
  obind (asArr (Value row)) (fun value =>
  obind (obind (index key 1) asNum) (fun seq =>
  obind (obind (index value 0) asStr) (fun id =>
  obind (obind (index value 1) asStr) (fun rev =>
  obind (if (3 <=? length value)%nat
         then obind (index value 2) asBool
         else Done false) (fun deleted =>
  Done {| Seq := goUint64 rt seq;
          ID := id;
          Changes := [ {["rev" := rev]} ];
          Deleted := deleted |})))))).

Definition GetChanges (rt : GoRuntime) (db : Database) (options : ChangesOptions)
  : DB (result (list ChangeEntry)) :=
  let* uuid := lift (UUID db) in
  let* r := call (Bucket_View "couchdb" "changes" (GetChanges_opts uuid options)) in
  match r with
  | Fail err => Ret (Fail err)
  | Ok rows =>
      let* changes := lift (traverse (GetChanges_entry rt) rows) in
      Ret (Ok changes)
  end.

(** *** Utilities *)

Definition ErrorAsHTTPStatus (err : option error) : Z * string :=
  match err with
  | None => (200, "OK")
  | Some (HTTPError status message) => (status, message)
  | Some (MCResponse status) =>
      if status =? KEY_ENOENT then (StatusNotFound, "Not Found")
      else if status =? KEY_EEXISTS then (StatusConflict, "Conflict")
      else (StatusBadGateway, "MC status " +:+ fmt_d status)
  | Some (OtherError text) =>
      (StatusInternalServerError, "Internal error: " +:+ text)
  end.

(** ** rest.go *)

(** What the handlers read of an [*http.Request]: [rq.Header.Get] and
    [rq.URL.Query().Get]. *)
Record Request : Type := {
  Header_Get : string -> string;
  Query_Get : string -> string
}.

(** The calls [rest.go] makes outside itself: reading the request body,
    encoding/json, the response writer, and the revision engine
    ([db.Put], [db.PutExistingRev]).  A nil [[]string] is [None]. *)
Inductive HttpE : Type -> Type :=
| ReadAll_Body : HttpE (result string)
| Json_Unmarshal (data : string) (into : Body) : HttpE (Body * option error)
| Json_Marshal (v : JSON) : HttpE (result string)
| RW_WriteHeader (status : Z) : HttpE unit
| RW_Header_Set (k v : string) : HttpE unit
| RW_Write (data : string) : HttpE unit
| Db_Put (db : Database) (docid : string) (body : Body)
    : HttpE (string * option error)
| Db_PutExistingRev (db : Database) (docid : string) (body : Body)
    (revisions : option (list string)) : HttpE (option error).

Abbreviation HTTP := (Prog HttpE).

(** The loop of [parseRevisions]; [start] stays positive, the caller
    having checked [start >= len(ids)]. *)
Fixpoint parseRevisions_loop (rt : GoRuntime) (start : Z) (ids : list JSON)
  : list string :=
  match ids with
  | [] => []
  | id :: ids' =>
      (fmt_d start +:+ "-" +:+ fmt_s rt id) :: parseRevisions_loop rt (start - 1) ids'
  end.

Definition parseRevisions (rt : GoRuntime) (body : Body)
  : outcome (option (list string)) :=
  match mapIndex body "_revisions" with
  | JObj revisions =>
      obind (asNum (mapIndex revisions "start")) (fun f =>
      let start := goInt rt f in
      obind (asArr (mapIndex revisions "ids")) (fun ids =>
      if start <? Z.of_nat (length ids) then Done None
      else Done (Some (parseRevisions_loop rt start ids))))
  | _ => Done None
  end.

(** [readJSONInto] with a [*Body] target; the result pairs the target
    after the call with the error. *)
Definition readJSONInto (rq : Request) (into : Body) : HTTP (Body * option error) :=
  let contentType := Header_Get rq "Content-Type" in
  if negb (String.eqb contentType "")
     && negb (String.eqb contentType "application/json")
  then Ret (into, Some (HTTPError StatusNotAcceptable
                          ("Invalid content type " +:+ contentType)))
  else
    let* r := call ReadAll_Body in
    match r with
    | Fail _ => Ret (into, Some (HTTPError StatusBadRequest ""))
    | Ok body =>
        let* (into', err) := call (Json_Unmarshal body into) in
        match err with
        | Some _ => Ret (into', Some (HTTPError StatusBadRequest "Bad JSON"))
        | None => Ret (into', None)
        end
    end.

(** [var body Body; return body, readJSONInto(rq, &body)]: the nil map
    is the empty one here. *)
Definition readJSON (rq : Request) : HTTP (Body * option error) :=
  readJSONInto rq ∅.

Definition writeJSON (value : JSON) : HTTP unit :=
  let* r := call (Json_Marshal value) in
  match r with
  | Fail _ => call (RW_WriteHeader StatusInternalServerError)
  | Ok json =>
      let* _ := call (RW_Header_Set "Content-Type" "application/json") in
      call (RW_Write json)
  end.

Definition writeError (err : option error) : HTTP unit :=
  match err with
  | None => Ret tt
  | Some _ =>
      let '(status, message) := ErrorAsHTTPStatus err in
      let* _ := call (RW_WriteHeader status) in
      writeJSON (JObj (<["error" := JNum (inject_Z status)]>
                       {["reason" := JStr message]}))
  end.

Definition HandlePutDoc (rt : GoRuntime) (db : Database) (rq : Request)
  (docid : string) : HTTP unit :=
  let* (body, err) := readJSON rq in
  match err with
  | Some _ => writeError err
  | None =>
      if negb (String.eqb (Query_Get rq "new_edits") "false") then
        let* (newRev, err) := call (Db_Put db docid body) in
        match err with
        | Some _ => writeError err
        | None =>
            let* _ := call (RW_Header_Set "Etag" newRev) in
            let* _ := writeJSON (JObj (<["ok" := JBool true]>
                                       (<["id" := JStr docid]>
                                        {["rev" := JStr newRev]}))) in
            call (RW_WriteHeader StatusCreated)
        end
      else
        let* revisions := lift (parseRevisions rt body) in
        let* _ := match revisions with
                  | None => writeError (Some (HTTPError StatusBadRequest "Bad _revisions"))
                  | Some _ => Ret tt
                  end in
        let* err := call (Db_PutExistingRev db docid body revisions) in
        let* _ := writeError err in
        call (RW_WriteHeader StatusCreated)
  end.

(** ** A bucket to run against *)

(** Modelled from the spec: the bucket client (go-couchbase) is an
    external collaborator whose code is not part of the package.  The
    model follows the contract of the spec's bucket adapter: [Get]
    decodes the stored JSON into the caller's shape and reports a
    missing key as a distinguished error; [Set] writes unconditionally;
    [Delete] removes the key; [Incr] with a positive delta initialises
    an absent key to [def], and with delta zero returns the current
    value without mutation and errors when the key is absent; [View]
    returns the rows of an installed view in key order, within
    [startkey]/[endkey], reversed when [descending], cut at [limit],
    counted when [reduce].  The views are the two map functions that
    [installViews] installs.  [createUUID] draws from [uuids]. *)
Record Bucket : Type := {
  kv : gmap string JSON;
  uuids : list string;
  view_error : option error
}.

Definition encodeDatabase (db : Database) : JSON :=
  JObj (<["name" := JStr (Name db)]> {["docPrefix" := JStr (DocPrefix db)]}).

Definition decodeField (m : Body) (k : string) : option string :=
  match m !! k with
  | None | Some JNull => Some ""
  | Some (JStr s) => Some s
  | Some _ => None
  end.

Definition decodeDatabase (v : JSON) : option Database :=
  match v with
  | JNull => Some {| Name := ""; DocPrefix := "" |}
  | JObj m =>
      match decodeField m "name", decodeField m "docPrefix" with
      | Some n, Some p => Some {| Name := n; DocPrefix := p |}
      | _, _ => None
      end
  | _ => None
  end.

(** View collation: null, booleans, numbers, strings, arrays, objects;
    arrays element by element.  Objects only occur as the empty
    end-of-range sentinel and compare equal to one another. *)
Definition collateRank (v : JSON) : Z :=
  match v with
  | JNull => 0
  | JBool false => 1
  | JBool true => 2
  | JNum _ => 3
  | JStr _ => 4
  | JArr _ => 5
  | JObj _ => 6
  end.

Fixpoint collate (a b : JSON) : comparison :=
  match a, b with
  | JNum x, JNum y => Qcompare x y
  | JStr x, JStr y => String.compare x y
  | JArr la, JArr lb =>
      (fix go (la lb : list JSON) : comparison :=
         match la, lb with
         | [], [] => Eq
         | [], _ :: _ => Lt
         | _ :: _, [] => Gt
         | x :: la', y :: lb' =>
             match collate x y with
             | Eq => go la' lb'
             | c => c
             end
         end) la lb
  | _, _ => Z.compare (collateRank a) (collateRank b)
  end.

Definition collate_le (a b : JSON) : bool :=
  match collate a b with
  | Gt => false
  | _ => true
  end.

Fixpoint insertRow (r : ViewRow) (rows : list ViewRow) : list ViewRow :=
  match rows with
  | [] => [r]
  | r' :: rows' =>
      if collate_le (Key r) (Key r') then r :: rows
      else r' :: insertRow r rows'
  end.

Definition sortRows (rows : list ViewRow) : list ViewRow :=
  foldr insertRow [] rows.

Definition viewIndex (mapfn : JSON -> string -> option (JSON * JSON))
  (store : gmap string JSON) : list ViewRow :=
  sortRows (omap (fun '(id, doc) =>
              match mapfn doc id with
              | Some (k, v) => Some {| RowID := id; Key := k; Value := v |}
              | None => None
              end) (map_to_list store)).

Definition inRange (params : Body) (descending : bool) (k : JSON) : bool :=
  let lo := if descending then params !! "endkey" else params !! "startkey" in
  let hi := if descending then params !! "startkey" else params !! "endkey" in
  match lo with Some l => collate_le l k | None => true end
  && match hi with Some u => collate_le k u | None => true end.

Definition queryView (mapfn : JSON -> string -> option (JSON * JSON))
  (countReduce : bool) (params : Body) (store : gmap string JSON)
  : list ViewRow :=
  let descending := match params !! "descending" with
                    | Some (JBool true) => true
                    | _ => false
                    end in
  let unreduced := match params !! "reduce" with
                   | Some (JBool false) => true
                   | _ => false
                   end in
  let rows := List.filter (fun r => inRange params descending (Key r))
                (viewIndex mapfn store) in
  let rows := if descending then rev rows else rows in
  if countReduce && negb unreduced
  then [ {| RowID := ""; Key := JNull;
            Value := JNum (inject_Z (Z.of_nat (length rows))) |} ]
  else match params !! "limit" with
       | Some (JNum n) => take (Z.to_nat (Qtrunc n)) rows
       | _ => rows
       end.

Definition DELTA_BADVAL : Z := 6.

Definition bucket_handler : handler BucketE Bucket :=
  fun X e =>
    match e in BucketE X return Bucket -> X * Bucket with
    | Bucket_Get k => fun b =>
        match kv b !! k with
        | None => (Fail (MCResponse KEY_ENOENT), b)
        | Some v =>
            match decodeDatabase v with
            | Some db => (Ok db, b)
            | None => (Fail (OtherError "json: cannot unmarshal"), b)
            end
        end
    | Bucket_Set k _ v => fun b =>
        (None, {| kv := <[k := encodeDatabase v]> (kv b);
                  uuids := uuids b; view_error := view_error b |})
    | Bucket_Delete k => fun b =>
        match kv b !! k with
        | None => (Some (MCResponse KEY_ENOENT), b)
        | Some _ =>
            (None, {| kv := delete k (kv b);
                      uuids := uuids b; view_error := view_error b |})
        end
    | Bucket_Incr k amt def _ => fun b =>
        match kv b !! k with
        | None =>
            if amt =? 0 then ((0, Some (MCResponse KEY_ENOENT)), b)
            else ((def, None),
                  {| kv := <[k := JNum (inject_Z def)]> (kv b);
                     uuids := uuids b; view_error := view_error b |})
        | Some (JNum q) =>
            if amt =? 0 then ((Qtrunc q, None), b)
            else
              let n := wrap64 (Qtrunc q + amt) in
              ((n, None),
               {| kv := <[k := JNum (inject_Z n)]> (kv b);
                  uuids := uuids b; view_error := view_error b |})
        | Some _ => ((0, Some (MCResponse DELTA_BADVAL)), b)
        end
    | Bucket_View ddoc name params => fun b =>
        match view_error b with
        | Some err => (Fail err, b)
        | None =>
            if negb (String.eqb ddoc "couchdb") then
              (Fail (HTTPError StatusNotFound "not_found"), b)
            else if String.eqb name "all_docs" then
              (Ok (queryView alldocs_map true params (kv b)), b)
            else if String.eqb name "changes" then
              (Ok (queryView changes_map false params (kv b)), b)
            else (Fail (HTTPError StatusNotFound "not_found"), b)
        end
    | createUUID => fun b =>
        match uuids b with
        | u :: us => (u, {| kv := kv b; uuids := us; view_error := view_error b |})
        | [] => ("", b)
        end
    end.

(** The names the data model permits: the whole name, one character at
    least, is drawn from the class. *)
Definition permittedName (s : string) : bool :=
  negb (String.eqb s "") && forallb kDBNameClass (list_ascii_of_string s).

(** A name with a character outside the class. *)
Definition hasIllegalChar (s : string) : bool :=
  existsb (fun c => negb (kDBNameClass c)) (list_ascii_of_string s).

Definition emptyBucket : Bucket :=
  {| kv := ∅; uuids := ["3f2a"; "9c41"]; view_error := None |}.


(** A stored document record: [current], [sequence] (the [revisions]
    list plays no part in the views). *)
Definition docRecord (id rev : string) (seq : Z) : JSON :=
  JObj (<["sequence" := JNum (inject_Z seq)]>
        {["current" := JObj (<["_id" := JStr id]> {["_rev" := JStr rev]})]}).

(** Database "db" as [CreateDatabase] leaves it with uuid "3f2a", after
    one document "a" was written. *)
Definition db_3f2a : Database := {| Name := "db"; DocPrefix := "doc:db/3f2a:" |}.

Definition bucket_db_a : Bucket :=
  {| kv := <["cdb:db" := encodeDatabase db_3f2a]>
           (<["cdb:db:nextsequence" := JNum (inject_Z 1)]>
            {["doc:db/3f2a:a" := docRecord "a" "1-8d1f" 1]});
     uuids := [];
     view_error := None |}.

(** The shape of a row of the changes view: key [[k0, seq]], value
    [[id, rev]] or [[id, rev, deleted]], and the entry the changes feed
    reports for it. *)
Record ChangeRow : Type := {
  cr_rowid : string;
  cr_key0 : JSON;
  cr_seq : Z;
  cr_id : string;
  cr_rev : string;
  cr_deleted : option bool
}.

Definition ChangeRow_row (c : ChangeRow) : ViewRow :=
  {| RowID := cr_rowid c;
     Key := JArr [cr_key0 c; JNum (inject_Z (cr_seq c))];
     Value := JArr (JStr (cr_id c) :: JStr (cr_rev c) ::
                    match cr_deleted c with
                    | Some b => [JBool b]
                    | None => []
                    end) |}.

Definition ChangeRow_entry (c : ChangeRow) : ChangeEntry :=
  {| Seq := cr_seq c;
     ID := cr_id c;
     Changes := [ {["rev" := cr_rev c]} ];
     Deleted := match cr_deleted c with
                | Some true => true
                | _ => false
                end |}.

Definition noColon (s : string) : bool :=
  forallb (fun c => negb (Ascii.eqb c ":")) (list_ascii_of_string s).

(** ** A client and an engine to run the handlers against *)

(** The answers of the world outside [rest.go], and the response as the
    writer accumulates it: the first [WriteHeader] fixes the status, a
    [Write] before any [WriteHeader] fixes it to 200. *)
Record HttpEnv : Type := {
  env_body : result string;
  env_Unmarshal : string -> Body -> Body * option error;
  env_Marshal : JSON -> result string;
  env_Put : Database -> string -> Body -> string * option error;
  env_PutExistingRev :
    Database -> string -> Body -> option (list string) -> option error
}.

Record Response : Type := {
  resp_status : option Z;
  resp_headers : gmap string string;
  resp_body : string
}.

Definition emptyResponse : Response :=
  {| resp_status := None; resp_headers := ∅; resp_body := "" |}.

Definition http_handler (env : HttpEnv) : handler HttpE Response :=
  fun X e =>
    match e in HttpE X return Response -> X * Response with
    | ReadAll_Body => fun r => (env_body env, r)
    | Json_Unmarshal data into => fun r => (env_Unmarshal env data into, r)
    | Json_Marshal v => fun r => (env_Marshal env v, r)
    | RW_WriteHeader status => fun r =>
        (tt, match resp_status r with
             | Some _ => r
             | None => {| resp_status := Some status;
                          resp_headers := resp_headers r;
                          resp_body := resp_body r |}
             end)
    | RW_Header_Set k v => fun r =>
        (tt, {| resp_status := resp_status r;
                resp_headers := <[k := v]> (resp_headers r);
                resp_body := resp_body r |})
    | RW_Write data => fun r =>
        (tt, {| resp_status := Some (default StatusOK (resp_status r));
                resp_headers := resp_headers r;
                resp_body := resp_body r +:+ data |})
    | Db_Put db docid body => fun r => (env_Put env db docid body, r)
    | Db_PutExistingRev db docid body revisions => fun r =>
        (env_PutExistingRev env db docid body revisions, r)
    end.

(** A replicator push of the empty object, which has no [_revisions],
    to an engine that accepts everything. *)
Definition env_push : HttpEnv :=
  {| env_body := Ok "{}";
     env_Unmarshal := fun _ _ => (∅, None);
     env_Marshal := fun _ => Ok "{}";
     env_Put := fun _ _ _ => ("1-8d1f", None);
     env_PutExistingRev := fun _ _ _ _ => None |}.

Definition rq_push : Request :=
  {| Header_Get := fun k => if String.eqb k "Content-Type"
                            then "application/json" else "";
     Query_Get := fun k => if String.eqb k "new_edits" then "false" else "" |}.

Definition rq_text_plain : Request :=
  {| Header_Get := fun k => if String.eqb k "Content-Type"
                            then "text/plain" else "";
     Query_Get := fun _ => "" |}.

(** A runtime to run the examples against.  Its fields fix what
    [GoRuntime] leaves open, for no platform in particular: the
    examples reach neither a conversion out of range nor a [%s] of an
    operand that is not a string. *)
Definition runtime_example : GoRuntime :=
  {| int_of_float_oor := fun _ => - 2 ^ 63;
     uint64_of_float_oor := fun _ => 2 ^ 63;
     fmt_s_other := fun _ => "%!s(?)" |}.


(** A body with the revision history 3-8d1f, 2-77c0, 1-e3b2. *)
Definition revisions_3 : Body :=
  <["start" := JNum (inject_Z 3)]>
  {["ids" := JArr [JStr "8d1f"; JStr "77c0"; JStr "e3b2"]]}.

Definition body_revisions_3 : Body := {["_revisions" := JObj revisions_3]}.

(** The bucket calls that cannot change the bucket: reads, view
    queries, and [Incr] by zero. *)
Definition readOnlyCall (c : callrec BucketE) : bool :=
  match c with
  | @Call _ _ (Bucket_Get _) => true
  | @Call _ _ (Bucket_View _ _ _) => true
  | @Call _ _ (Bucket_Incr _ amt _ _) => amt =? 0
  | _ => false
  end.

(** The handle read back from a record without [docPrefix]. *)
Definition db_no_prefix : Database := {| Name := "db"; DocPrefix := "" |}.

(** A bucket whose views are down. *)
Definition bucket_views_down : Bucket :=
  {| kv := kv bucket_db_a; uuids := [];
     view_error := Some (HTTPError StatusInternalServerError "views down") |}.

(** The calls of [rest.go] into the revision engine. *)
Definition engineCall (c : callrec HttpE) : bool :=
  match c with
  | @Call _ _ (Db_Put _ _ _) => true
  | @Call _ _ (Db_PutExistingRev _ _ _ _) => true
  | _ => false
  end.

(** A body whose [_revisions] is an object without [start] or [ids]. *)
Definition body_revisions_empty : Body := {["_revisions" := JObj ∅]}.

(** An ordinary PUT of the empty object. *)
Definition rq_put : Request :=
  {| Header_Get := fun k => if String.eqb k "Content-Type"
                            then "application/json" else "";
     Query_Get := fun _ => "" |}.

(** ** rest.go: the handlers and the router *)

(** Rewrites the calls of a program into a larger signature. *)
Fixpoint translate {E F : Type -> Type} (f : forall X, E X -> F X) {A}
  (p : Prog E A) : Prog F A :=
  match p with
  | Ret a => Ret a
  | Panic m => Panic m
  | Vis e k => Vis (f _ e) (fun x => translate f (k x))
  end.

(** [RevsDiffInput] is declared in a sibling file; it maps document ids
    to lists of revision ids. *)
Abbreviation RevsDiffInput := (gmap string (list string)).

(** Everything a handler of [rest.go] calls: the calls of its helpers,
    the calls of [database.go], and the document operations of the
    sibling file.  A nil [Body] is [None]. *)
Inductive RestE : Type -> Type :=
| Http {X : Type} (e : HttpE X) : RestE X
| Bucket_call {X : Type} (e : BucketE X) : RestE X
| Db_Get (db : Database) (docid : string) : RestE (option Body * option error)
| Db_Post (db : Database) (body : Body) : RestE (string * string * option error)
| Db_DeleteDoc (db : Database) (docid revid : string)
    : RestE (string * option error)
| Db_GetLocal (db : Database) (docid : string)
    : RestE (option Body * option error)
| Db_PutLocal (db : Database) (docid : string) (body : Body)
    : RestE (option error)
| Db_DeleteLocal (db : Database) (docid : string) : RestE (option error)
| Json_Unmarshal_RevsDiffInput (data : string) (into : RevsDiffInput)
    : RestE (RevsDiffInput * option error)
| Db_RevsDiff (db : Database) (input : RevsDiffInput)
    : RestE (JSON * option error).

Abbreviation REST := (Prog RestE).

Definition http {A} (p : HTTP A) : REST A := translate (@Http) p.
Definition bucket {A} (p : DB A) : REST A := translate (@Bucket_call) p.

(** What the router reads of the request besides headers and query. *)
Record HttpRequest : Type := {
  Method : string;
  URL_Path : string;
  Rq : Request
}.

Definition HandleGetDoc (db : Database) (docid : string) : REST unit :=
  let* (value, err) := call (Db_Get db docid) in
  match err with
  | Some _ => http (writeError err)
  | None =>
      match value with
      | None => http (call (RW_WriteHeader StatusNotFound))
      | Some value =>
          let* rev := lift (asStr (mapIndex value "_rev")) in
          let* _ := http (call (RW_Header_Set "Etag" rev)) in
          http (writeJSON (JObj value))
      end
  end.

Definition HandlePostDoc (db : Database) (rq : Request) : REST unit :=
  let* (body, err) := http (readJSON rq) in
  match err with
  | Some _ => http (writeError err)
  | None =>
      let* (docid, newRev, err) := call (Db_Post db body) in
      match err with
      | Some _ => http (writeError err)
      | None =>
          let* _ := http (call (RW_Header_Set "Location" docid)) in
          let* _ := http (call (RW_Header_Set "Etag" newRev)) in
          http (writeJSON (JObj (<["ok" := JBool true]>
                                 (<["id" := JStr docid]>
                                  {["rev" := JStr newRev]}))))
      end
  end.

Definition HandleDeleteDoc (db : Database) (rq : Request) (docid : string)
  : REST unit :=
  let revid := Query_Get rq "rev" in
  let* (newRev, err) := call (Db_DeleteDoc db docid revid) in
  match err with
  | Some _ => http (writeError err)
  | None =>
      http (writeJSON (JObj (<["ok" := JBool true]>
                             (<["id" := JStr docid]>
                              {["rev" := JStr newRev]}))))
  end.

(** One turn of the loop of [HandleBulkDocs]: the status appended to
    [result]. *)
Definition HandleBulkDocs_item (rt : GoRuntime) (db : Database)
  (newEdits : bool) (item : JSON) : REST Body :=
  let* doc := lift (match item with
                    | JObj doc => Done doc
                    | _ => Panicked "interface conversion: not map[string]interface {}"
                    end) in
  let docid := match mapIndex doc "_id" with
               | JStr s => s
               | _ => ""
               end in
  let* (docid, revid, err) :=
    if newEdits then
      if negb (String.eqb docid "") then
        let* (revid, err) := http (call (Db_Put db docid doc)) in
        Ret (docid, revid, err)
      else
        call (Db_Post db doc)
    else
      let* revisions := lift (parseRevisions rt doc) in
      match revisions with
      | None =>
          Ret (docid, "", Some (HTTPError StatusBadRequest "Bad _revisions"))
      | Some revs =>
          let* revid := lift (match revs with
                              | r :: _ => Done r
                              | [] => Panicked "index out of range"
                              end) in
          let* err := http (call (Db_PutExistingRev db docid doc revisions)) in
          Ret (docid, revid, err)
      end in
  let status : Body := ∅ in
  let status := if negb (String.eqb docid "")
                then <["id" := JStr docid]> status else status in
  let status := match err with
                | Some _ => <["error" := JStr (ErrorAsHTTPStatus err).2]> status
                | None => <["rev" := JStr revid]> status
                end in
  Ret status.

Fixpoint HandleBulkDocs_loop (rt : GoRuntime) (db : Database) (newEdits : bool)
  (items : list JSON) (result : list Body) : REST (list Body) :=
  match items with
  | [] => Ret result
  | item :: items' =>
      let* status := HandleBulkDocs_item rt db newEdits item in
      HandleBulkDocs_loop rt db newEdits items' (result ++ [status])
  end.

Definition HandleBulkDocs (rt : GoRuntime) (db : Database) (rq : Request)
  : REST unit :=
  let* (body, err) := http (readJSON rq) in
  match err with
  | Some _ => http (writeError err)
  | None =>
      let newEdits := match mapIndex body "new_edits" with
                      | JBool b => b
                      | _ => true
                      end in
      let* docs := lift (asArr (mapIndex body "docs")) in
      let* result := HandleBulkDocs_loop rt db newEdits docs [] in
      let* _ := http (call (RW_WriteHeader StatusCreated)) in
      http (writeJSON (JObj {["docs" := JArr (JObj <$> result)]}))
  end.

(** [json.Marshal] of a [ChangeEntry], as its field tags say:
    [deleted] is left out when false. *)
Definition ChangeEntry_json (e : ChangeEntry) : JSON :=
  let m : Body :=
    <["seq" := JNum (inject_Z (Seq e))]>
    (<["id" := JStr (ID e)]>
     {["changes" := JArr ((fun rev : ChangeRev => JObj (JStr <$> rev))
                          <$> Changes e)]}) in
  JObj (if Deleted e then <["deleted" := JBool true]> m else m).

(** [int(u)] for a [uint64] [u]. *)
Definition int_of_uint64 (u : Z) : Z :=
  if u <? 2 ^ 63 then u else u - 2 ^ 64.

(** [getIntQuery]; [ParseUint q] is the value that
    [strconv.ParseUint(q, 10, 64)] returns, its error being dropped. *)
Definition getIntQuery (ParseUint : string -> Z) (rq : Request) (query : string)
  : Z :=
  let q := Query_Get rq query in
  if negb (String.eqb q "") then ParseUint q else 0.

Definition HandleChanges (rt : GoRuntime) (ParseUint : string -> Z)
  (db : Database) (rq : Request) : REST unit :=
  let options := {| Since := getIntQuery ParseUint rq "since";
                    Limit := int_of_uint64 (getIntQuery ParseUint rq "limit");
                    Descending := false |} in
  let* r := bucket (GetChanges rt db options) in
  let* (changes, lastSeq, err) :=
    match r with
    | Ok changes =>
        let* (lastSeq, err) := bucket (LastSequence db) in
        Ret (changes, lastSeq, err)
    | Fail e => Ret ([], 0, Some e)
    end in
  match err with
  | Some _ => http (writeError err)
  | None =>
      http (writeJSON (JObj (<["results" := JArr (ChangeEntry_json <$> changes)]>
                             {["last_seq" := JNum (inject_Z lastSeq)]})))
  end.

Definition HandleGetLocalDoc (db : Database) (docid : string) : REST unit :=
  let* (value, err) := call (Db_GetLocal db docid) in
  match err with
  | Some _ => http (writeError err)
  | None =>
      match value with
      | None => http (call (RW_WriteHeader StatusNotFound))
      | Some value => http (writeJSON (JObj value))
      end
  end.

Definition HandlePutLocalDoc (db : Database) (rq : Request) (docid : string)
  : REST unit :=
  let* (body, err) := http (readJSON rq) in
  match err with
  | Some _ => http (writeError err)
  | None =>
      let* err := call (Db_PutLocal db docid body) in
      match err with
      | Some _ => http (writeError err)
      | None => http (call (RW_WriteHeader StatusCreated))
      end
  end.

Definition HandleDeleteLocalDoc (db : Database) (docid : string) : REST unit :=
  let* err := call (Db_DeleteLocal db docid) in
  http (writeError err).

(** The end of [Handle], reached when no case returned. *)
Definition Handle_unhandled : REST unit :=
  http (call (RW_WriteHeader StatusBadRequest)).

Definition Handle (rt : GoRuntime) (ParseUint : string -> Z) (db : Database)
  (rq : HttpRequest) (path : list string) : REST unit :=
  let method := Method rq in
  match path with
  | [] =>
      if String.eqb method "GET" then
        let* count := bucket (DocCount rt db) in
        http (writeJSON (JObj (<["db_name" := JStr (Name db)]>
                               {["doc_count" := JNum (inject_Z count)]})))
      else if String.eqb method "POST" then HandlePostDoc db (Rq rq)
      else if String.eqb method "DELETE" then
        let* err := bucket (Delete db) in
        let* _ := http (writeError err) in
        http (call (RW_Write "ok"))
      else Handle_unhandled
  | [docid] =>
      if String.eqb docid "_all_docs" then
        if String.eqb method "GET" then
          let* r := bucket (AllDocIDs db) in
          match r with
          | Fail err => http (writeError (Some err))
          | Ok ids => http (writeJSON (JArr (JStr <$> ids)))
          end
        else Handle_unhandled
      else if String.eqb docid "_bulk_docs" then
        if String.eqb method "POST" then HandleBulkDocs rt db (Rq rq)
        else Handle_unhandled
      else if String.eqb docid "_changes" then
        if String.eqb method "GET" then HandleChanges rt ParseUint db (Rq rq)
        else Handle_unhandled
      else if String.eqb docid "_revs_diff" then
        if String.eqb method "POST" then
          let contentType := Header_Get (Rq rq) "Content-Type" in
          let* err :=
            if negb (String.eqb contentType "")
               && negb (String.eqb contentType "application/json")
            then Ret (∅, Some (HTTPError StatusNotAcceptable
                                 ("Invalid content type " +:+ contentType)))
            else
              let* r := http (call ReadAll_Body) in
              match r with
              | Fail _ => Ret (∅, Some (HTTPError StatusBadRequest ""))
              | Ok body =>
                  let* (input, err) :=
                    call (Json_Unmarshal_RevsDiffInput body ∅) in
                  match err with
                  | Some _ =>
                      Ret (input, Some (HTTPError StatusBadRequest "Bad JSON"))
                  | None => Ret (input, None)
                  end
              end in
          match err with
          | (_, Some e) => http (writeError (Some e))
          | (input, None) =>
              let* (output, err) := call (Db_RevsDiff db input) in
              let* _ := http (writeJSON output) in
              http (writeError err)
          end
        else Handle_unhandled
      else
        match docid with
        | EmptyString => Panic "index out of range"
        | String c _ =>
            if negb (Ascii.eqb c "_") then
              if String.eqb method "GET" then HandleGetDoc db docid
              else if String.eqb method "PUT" then
                http (HandlePutDoc rt db (Rq rq) docid)
              else if String.eqb method "DELETE" then
                HandleDeleteDoc db (Rq rq) docid
              else Handle_unhandled
            else Handle_unhandled
        end
  | [p0; docid] =>
      if String.eqb p0 "_local" then
        if String.eqb method "GET" then HandleGetLocalDoc db docid
        else if String.eqb method "PUT" then HandlePutLocalDoc db (Rq rq) docid
        else if String.eqb method "DELETE" then HandleDeleteLocalDoc db docid
        else Handle_unhandled
      else Handle_unhandled
  | _ => Handle_unhandled
  end.

Definition handleRoot (rq : HttpRequest) : REST unit :=
  if String.eqb (Method rq) "GET" then
    http (writeJSON (JObj (<["couchdb" := JStr "welcome"]>
                           {["version" := JStr "CouchGlue 0.0"]})))
  else http (call (RW_WriteHeader StatusBadRequest)).

(** [for len(path) > 0 && path[len(path)-1] == "" { path = path[0 : len(path)-1] }] *)
Fixpoint dropTrailingEmpty (path : list string) : list string :=
  match path with
  | [] => []
  | p :: path' =>
      match dropTrailingEmpty path' with
      | [] => if String.eqb p "" then [] else [p]
      | rest => p :: rest
      end
  end.

(** The handler that [NewRESTHandler] returns; [rq.URL.Path[1:]] panics
    on an empty path, and [strings.Split] with separator "/" is
    [splitOn]. *)
Definition NewRESTHandler (rt : GoRuntime) (ParseUint : string -> Z)
  (rq : HttpRequest) : REST unit :=
  match URL_Path rq with
  | EmptyString => Panic "slice bounds out of range"
  | String _ rest =>
      let path := dropTrailingEmpty (splitOn "/" rest) in
      match path with
      | [] => handleRoot rq
      | dbName :: path' =>
          if String.eqb (Method rq) "PUT" && Nat.eqb (length path) 1 then
            let* r := bucket (CreateDatabase dbName) in
            match r with
            | Fail err => http (writeError (Some err))
            | Ok _ => http (call (RW_WriteHeader StatusCreated))
            end
          else
            let* r := bucket (GetDatabase dbName) in
            match r with
            | Fail err => http (writeError (Some err))
            | Ok db => Handle rt ParseUint db rq path'
            end
      end
  end.

(** The calls that only produce the response: setting the status or a
    header, writing the body, and marshalling the value to write.  The
    bucket, the document engine, and the reading and decoding of the
    request body are not among them. *)
Definition responseCall (c : callrec RestE) : bool :=
  match c with
  | @Call _ _ (Http (RW_WriteHeader _)) => true
  | @Call _ _ (Http (RW_Header_Set _ _)) => true
  | @Call _ _ (Http (RW_Write _)) => true
  | @Call _ _ (Http (Json_Marshal _)) => true
  | _ => false
  end.

(** The call that sets status 201. *)
Definition setsCreated (c : callrec RestE) : bool :=
  match c with
  | @Call _ _ (Http (RW_WriteHeader status)) => status =? StatusCreated
  | _ => false
  end.

(** A call of one signature seen in a larger one. *)
Definition mapCall {E F : Type -> Type} (f : forall X, E X -> F X)
  (c : callrec E) : callrec F :=
  Call (f _ (call_op c)).

Definition sub_handler {E F : Type -> Type} {W} (f : forall X, E X -> F X)
  (h : handler F W) : handler E W :=
  fun X e => h X (f X e).

(** The one engine call that [HandleBulkDocs] makes for a document when
    [new_edits] is true. *)
Definition bulk_call (db : Database) (doc : Body) : callrec RestE :=
  match mapIndex doc "_id" with
  | JStr (String c s) => Call (Http (Db_Put db (String c s) doc))
  | _ => Call (Db_Post db doc)
  end.

(** A client, a bucket and an engine in one world, for the router. *)
Record RestEnv : Type := {
  renv_http : HttpEnv;
  renv_Get : Database -> string -> option Body * option error;
  renv_Post : Database -> Body -> string * string * option error;
  renv_DeleteDoc : Database -> string -> string -> string * option error;
  renv_GetLocal : Database -> string -> option Body * option error;
  renv_PutLocal : Database -> string -> Body -> option error;
  renv_DeleteLocal : Database -> string -> option error;
  renv_UnmarshalRevsDiff :
    string -> RevsDiffInput -> RevsDiffInput * option error;
  renv_RevsDiff : Database -> RevsDiffInput -> JSON * option error
}.

Definition rest_handler (env : RestEnv) : handler RestE (Response * Bucket) :=
  fun X e =>
    match e in RestE X return Response * Bucket -> X * (Response * Bucket) with
    | Http e' => fun w =>
        let '(x, r) := http_handler (renv_http env) _ e' w.1 in (x, (r, w.2))
    | Bucket_call e' => fun w =>
        let '(x, b) := bucket_handler _ e' w.2 in (x, (w.1, b))
    | Db_Get db docid => fun w => (renv_Get env db docid, w)
    | Db_Post db body => fun w => (renv_Post env db body, w)
    | Db_DeleteDoc db docid revid => fun w => (renv_DeleteDoc env db docid revid, w)
    | Db_GetLocal db docid => fun w => (renv_GetLocal env db docid, w)
    | Db_PutLocal db docid body => fun w => (renv_PutLocal env db docid body, w)
    | Db_DeleteLocal db docid => fun w => (renv_DeleteLocal env db docid, w)
    | Json_Unmarshal_RevsDiffInput data into => fun w =>
        (renv_UnmarshalRevsDiff env data into, w)
    | Db_RevsDiff db input => fun w => (renv_RevsDiff env db input, w)
    end.

(** An engine that knows no document and accepts every write. *)
Definition renv_empty : RestEnv :=
  {| renv_http := env_push;
     renv_Get := fun _ _ => (None, None);
     renv_Post := fun _ _ => ("5e0c", "1-8d1f", None);
     renv_DeleteDoc := fun _ _ _ => ("2-77c0", None);
     renv_GetLocal := fun _ _ => (None, None);
     renv_PutLocal := fun _ _ _ => None;
     renv_DeleteLocal := fun _ _ => None;
     renv_UnmarshalRevsDiff := fun _ into => (into, None);
     renv_RevsDiff := fun _ _ => (JObj ∅, None) |}.

Definition request (method path : string) : HttpRequest :=
  {| Method := method; URL_Path := path; Rq := rq_put |}.

(** A bulk request with two documents, the first with an id. *)
Definition bulk_docs_2 : list Body :=
  [ {["_id" := JStr "a"]}; {["v" := JNum (inject_Z 1)]} ].

Definition renv_bulk : RestEnv :=
  {| renv_http :=
       {| env_body := Ok "{}";
          env_Unmarshal := fun _ _ =>
            ({["docs" := JArr (JObj <$> bulk_docs_2)]}, None);
          env_Marshal := fun _ => Ok "{}";
          env_Put := fun _ _ _ => ("", Some (HTTPError StatusConflict "Conflict"));
          env_PutExistingRev := fun _ _ _ _ => None |};
     renv_Get := fun _ _ => (None, None);
     renv_Post := fun _ _ => ("5e0c", "1-8d1f", None);
     renv_DeleteDoc := fun _ _ _ => ("2-77c0", None);
     renv_GetLocal := fun _ _ => (None, None);
     renv_PutLocal := fun _ _ _ => None;
     renv_DeleteLocal := fun _ _ => None;
     renv_UnmarshalRevsDiff := fun _ into => (into, None);
     renv_RevsDiff := fun _ _ => (JObj ∅, None) |}.

(** A replicated document whose history is empty. *)
Definition doc_no_ids : Body :=
  {["_revisions" := JObj (<["start" := JNum (inject_Z 0)]>
                          {["ids" := JArr []]})]}.

(** An engine whose [Get] returns a body with a numeric [_rev]. *)
Definition renv_bad_rev : RestEnv :=
  {| renv_http := env_push;
     renv_Get := fun _ _ => (Some {["_rev" := JNum (inject_Z 1)]}, None);
     renv_Post := renv_Post renv_empty;
     renv_DeleteDoc := renv_DeleteDoc renv_empty;
     renv_GetLocal := renv_GetLocal renv_empty;
     renv_PutLocal := renv_PutLocal renv_empty;
     renv_DeleteLocal := renv_DeleteLocal renv_empty;
     renv_UnmarshalRevsDiff := renv_UnmarshalRevsDiff renv_empty;
     renv_RevsDiff := renv_RevsDiff renv_empty |}.





(** Database "db" holding one document, "x:y". *)
Definition bucket_db_xy : Bucket :=
  {| kv := <["cdb:db" := encodeDatabase db_3f2a]>
           {["doc:db/3f2a:x:y" := docRecord "x:y" "1-8d1f" 1]};
     uuids := [];
     view_error := None |}.

(** Database "a:b", as [CreateDatabase] leaves it with uuid "3f2a",
    holding one document, "d". *)
Definition db_a_b : Database := {| Name := "a:b"; DocPrefix := "doc:a:b/3f2a:" |}.

Definition bucket_db_a_b : Bucket :=
  {| kv := <["cdb:a:b" := encodeDatabase db_a_b]>
           {["doc:a:b/3f2a:d" := docRecord "d" "1-8d1f" 1]};
     uuids := [];
     view_error := None |}.

(** * Properties *)

(** ** Running programs *)

Section RunLemmas.
Context {E : Type -> Type} {W : Type} (h : handler E W).

Lemma run_bind {A B} (p : Prog E A) (f : A -> Prog E B) (w : W) :
  run h (bind p f) w =
  match run h p w with
  | (Done a, w1, t1) =>
      let '(o, w2, t2) := run h (f a) w1 in (o, w2, (t1 ++ t2)%list)
  | (Panicked m, w1, t1) => (Panicked m, w1, t1)
  end.
Proof.
  revert w. induction p as [a | m | X e k IH]; intros w; simpl.
  - destruct (run h (f a) w) as [[o w2] t2]. reflexivity.
  - reflexivity.
  - destruct (h X e w) as [x w1]. rewrite IH.
    destruct (run h (k x) w1) as [[[a | m] w2] t1]; [| reflexivity].
    destruct (run h (f a) w2) as [[o w3] t2]. reflexivity.
Qed.

Lemma run_call {X} (e : E X) (w : W) :
  run h (call e) w = (Done (h X e w).1, (h X e w).2, [Call e]).
Proof. unfold call. simpl. destruct (h X e w). reflexivity. Qed.

End RunLemmas.

(** ** Database names *)

Lemma MatchString_existsb (s : string) :
  MatchString s = existsb kDBNameClass (list_ascii_of_string s).
Proof.
  induction s as [| c s IH]; [reflexivity |].
  simpl. rewrite IH. unfold matchesAt. simpl.
  destruct (kDBNameClass c); reflexivity.
Qed.

Lemma permittedName_MatchString (s : string) :
  permittedName s = true -> MatchString s = true.
Proof.
  unfold permittedName. rewrite MatchString_existsb.
  destruct s as [| c s]; [discriminate |].
  simpl. intros H. apply andb_true_iff in H as [Hc _]. now rewrite Hc.
Qed.

Lemma dbInternalDocName_accepted (s : string) :
  MatchString s = true -> dbInternalDocName s = "cdb:" +:+ s.
Proof. unfold dbInternalDocName. now intros ->. Qed.

Lemma dbInternalDocName_rejected (s : string) :
  MatchString s = false -> dbInternalDocName s = "".
Proof. unfold dbInternalDocName. now intros ->. Qed.

(** What the name check does reject: a name without a single character
    of the class gets status 400 from both entry points, and the bucket
    is not called. *)
Lemma no_class_character_rejected (name : string) W (h : handler BucketE W) (w : W) :
  MatchString name = false ->
  run h (GetDatabase name) w
    = (Done (Fail (HTTPError 400 "Illegal database name")), w, []) /\
  run h (CreateDatabase name) w
    = (Done (Fail (HTTPError 400 "Illegal database name")), w, []).
Proof.
  intros H. unfold GetDatabase, CreateDatabase.
  rewrite (dbInternalDocName_rejected _ H). split; reflexivity.
Qed.

(** A name with one character of the class is looked up in the bucket,
    whatever its other characters are. *)
Lemma some_class_character_accepted (name : string) W (h : handler BucketE W) (w : W) :
  MatchString name = true ->
  exists t1 t2,
    (run h (GetDatabase name) w).2 = Call (Bucket_Get ("cdb:" +:+ name)) :: t1 /\
    (run h (CreateDatabase name) w).2 = Call (Bucket_Get ("cdb:" +:+ name)) :: t2.
Proof.
  intros H. unfold GetDatabase, CreateDatabase.
  rewrite (dbInternalDocName_accepted _ H).
  destruct (decide (("cdb:" +:+ name) = "")) as [Heq | _]; [discriminate Heq |].
  simpl.
  destruct (h _ (Bucket_Get ("cdb:" +:+ name)) w) as [r w1].
  destruct r as [db | e]; simpl.
  - eexists _, _. split; reflexivity.
  - destruct (h _ createUUID w1) as [u w2].
    destruct (h _ (Bucket_Set _ _ _) w2) as [err w3].
    destruct err; eexists _, _; split; reflexivity.
Qed.

(** C1 (the code departs from it): "MyDB" has characters outside the
    class, yet the unanchored pattern finds "y" in it, so neither entry
    point answers 400: [GetDatabase] reads key "cdb:MyDB" and reports
    the bucket's not-found error, and [CreateDatabase] reads that key
    and then writes the record under it. *)
Theorem illegal_name_MyDB_reaches_bucket :
  hasIllegalChar "MyDB" = true /\
  run bucket_handler (GetDatabase "MyDB") emptyBucket
    = (Done (Fail (MCResponse KEY_ENOENT)), emptyBucket,
       [Call (Bucket_Get "cdb:MyDB")]) /\
  (let r := run bucket_handler (CreateDatabase "MyDB") emptyBucket in
   r.1.1 = Done (Ok {| Name := "MyDB"; DocPrefix := "doc:MyDB/3f2a:" |}) /\
   r.2 = [Call (Bucket_Get "cdb:MyDB"); Call createUUID;
          Call (Bucket_Set "cdb:MyDB" 0
                  {| Name := "MyDB"; DocPrefix := "doc:MyDB/3f2a:" |})] /\
   kv r.1.2 !! "cdb:MyDB"
     = Some (encodeDatabase {| Name := "MyDB"; DocPrefix := "doc:MyDB/3f2a:" |})).
Proof. vm_compute. repeat split; reflexivity. Qed.

(** ** Deleting a database *)

Lemma run_forEach_Delete W (h : handler BucketE W) (docIDs : list string) (w : W) :
  (run h (forEach (fun docID =>
            let* _ := call (Bucket_Delete docID) in Ret tt) docIDs) w).1.1 = Done tt /\
  (run h (forEach (fun docID =>
            let* _ := call (Bucket_Delete docID) in Ret tt) docIDs) w).2
    = map (fun docID => Call (Bucket_Delete docID)) docIDs.
Proof.
  revert w. induction docIDs as [| d l IH]; intros w; [split; reflexivity |].
  simpl. destruct (h _ (Bucket_Delete d) w) as [err w1].
  specialize (IH w1).
  destruct (run h (forEach _ l) w1) as [[o w2] t]. simpl in *.
  destruct IH as [-> ->]. split; reflexivity.
Qed.

(** The document id that [AllDocIDs] reads off a row: [key[1].(string)]. *)
Lemma AllDocIDs_rows db uuid W (h : handler BucketE W) (w w1 : W) rows docids :
  UUID db = Done uuid ->
  h _ (Bucket_View "couchdb" "all_docs"
         (<["startkey" := JArr [JStr uuid]]>
          (<["endkey" := JArr [JStr uuid; JObj ∅]]>
           {["reduce" := JBool false]}))) w = (Ok rows, w1) ->
  traverse (fun row => obind (asArr (Key row)) (fun key =>
                       obind (index key 1) asStr)) rows = Done docids ->
  run h (AllDocIDs db) w
    = (Done (Ok docids), w1,
       [Call (Bucket_View "couchdb" "all_docs"
                (<["startkey" := JArr [JStr uuid]]>
                 (<["endkey" := JArr [JStr uuid; JObj ∅]]>
                  {["reduce" := JBool false]})))]).
Proof.
  intros Hu Hv Hd. unfold AllDocIDs, allDocIDsOpts. rewrite Hu. simpl.
  rewrite Hv. rewrite Hd. reflexivity.
Qed.

(** Which keys [Delete] asks the bucket to remove, once the view has
    answered and the database record is gone: the record, the counter,
    and each enumerated document id as the view row gives it, without
    the document prefix. *)
Lemma Delete_calls db uuid W (h : handler BucketE W) (w w1 : W) rows docids :
  UUID db = Done uuid ->
  h _ (Bucket_View "couchdb" "all_docs"
         (<["startkey" := JArr [JStr uuid]]>
          (<["endkey" := JArr [JStr uuid; JObj ∅]]>
           {["reduce" := JBool false]}))) w = (Ok rows, w1) ->
  traverse (fun row => obind (asArr (Key row)) (fun key =>
                       obind (index key 1) asStr)) rows = Done docids ->
  (h _ (Bucket_Delete (dbInternalDocName (Name db))) w1).1 = None ->
  (run h (Delete db) w).1.1 = Done None /\
  (run h (Delete db) w).2
    = Call (Bucket_View "couchdb" "all_docs"
              (<["startkey" := JArr [JStr uuid]]>
               (<["endkey" := JArr [JStr uuid; JObj ∅]]>
                {["reduce" := JBool false]})))
      :: Call (Bucket_Delete (dbInternalDocName (Name db)))
      :: Call (Bucket_Delete (sequenceDocID db))
      :: map (fun docID => Call (Bucket_Delete docID)) docids.
Proof.
  intros Hu Hv Hd Hdel. unfold Delete.
  rewrite run_bind, (AllDocIDs_rows _ _ _ _ _ _ _ _ Hu Hv Hd).
  rewrite run_bind, run_call.
  destruct (h _ (Bucket_Delete (dbInternalDocName (Name db))) w1) as [err w2].
  simpl in Hdel. subst err. cbn [fst snd].
  rewrite run_bind, run_call, run_bind.
  destruct (run_forEach_Delete W h docids
              (h _ (Bucket_Delete (sequenceDocID db)) w2).2) as [Ho Ht].
  destruct (run h (forEach _ docids) _) as [[o w3] t]. simpl in Ho, Ht.
  subst o t. simpl. rewrite app_nil_r. split; reflexivity.
Qed.

(** C2 (the code departs from it): on a bucket that holds database "db"
    with one document "a", [Delete] succeeds, and removes the database
    record and the counter; but the third removal names the key "a",
    not [realDocID "a"], so the document record stays in the bucket. *)
Theorem Delete_leaves_document_record :
  let r := run bucket_handler (Delete db_3f2a) bucket_db_a in
  (run bucket_handler (AllDocIDs db_3f2a) bucket_db_a).1.1 = Done (Ok ["a"]) /\
  r.1.1 = Done None /\
  map (fun c => match c with
                | @Call _ _ (Bucket_Delete k) => Some k
                | _ => None
                end) r.2
    = [None; Some "cdb:db"; Some "cdb:db:nextsequence"; Some "a"] /\
  kv r.1.2 !! "cdb:db" = None /\
  kv r.1.2 !! sequenceDocID db_3f2a = None /\
  realDocID db_3f2a "a" = "doc:db/3f2a:a" /\
  kv r.1.2 !! realDocID db_3f2a "a" = Some (docRecord "a" "1-8d1f" 1).
Proof. vm_compute. repeat split; reflexivity. Qed.

(** ** Creating a database *)




(** ** The sequence counter *)

(** Whatever the bucket, [LastSequence] is the single call
    [Incr(counter key, 0, 0, 0)] and returns its answer as it is. *)
Lemma LastSequence_is_Incr_0 db W (h : handler BucketE W) (w : W) :
  run h (LastSequence db) w
    = (Done (h _ (Bucket_Incr (sequenceDocID db) 0 0 0) w).1,
       (h _ (Bucket_Incr (sequenceDocID db) 0 0 0) w).2,
       [Call (Bucket_Incr (sequenceDocID db) 0 0 0)]).
Proof. apply run_call. Qed.

Lemma Qtrunc_inject_Z (n : Z) : Qtrunc (inject_Z n) = n.
Proof. unfold Qtrunc. simpl. apply Z.quot_1_r. Qed.

(** ** Errors as HTTP statuses *)

(** C7 (amended): nil gives 200, a not-found response of the K/V store
    404, an already-exists response 409, any other K/V response 502, an
    [HTTPError] its own status, and any other error 500. *)
Theorem ErrorAsHTTPStatus_statuses :
  (ErrorAsHTTPStatus None).1 = 200 /\
  (ErrorAsHTTPStatus (Some (MCResponse KEY_ENOENT))).1 = 404 /\
  (ErrorAsHTTPStatus (Some (MCResponse KEY_EEXISTS))).1 = 409 /\
  (forall status, status <> KEY_ENOENT -> status <> KEY_EEXISTS ->
     (ErrorAsHTTPStatus (Some (MCResponse status))).1 = 502) /\
  (forall status message,
     (ErrorAsHTTPStatus (Some (HTTPError status message))).1 = status) /\
  (forall text, (ErrorAsHTTPStatus (Some (OtherError text))).1 = 500).
Proof.
  repeat split.
  intros status H1 H2. unfold ErrorAsHTTPStatus.
  destruct (Z.eqb_spec status KEY_ENOENT); [contradiction |].
  destruct (Z.eqb_spec status KEY_EEXISTS); [contradiction |].
  reflexivity.
Qed.

Lemma ErrorAsHTTPStatus_statuses_witness :
  (ErrorAsHTTPStatus (Some (MCResponse 134))).1 = 502.
Proof.
  apply (proj1 (proj2 (proj2 (proj2 ErrorAsHTTPStatus_statuses)))).
  - discriminate.
  - discriminate.
Defined.

(** C7, as stated, fails for the already-exists response: its status is
    409, not 412. *)
Lemma ErrorAsHTTPStatus_exists_not_412 :
  ErrorAsHTTPStatus (Some (MCResponse KEY_EEXISTS)) = (409, "Conflict") /\
  (ErrorAsHTTPStatus (Some (MCResponse KEY_EEXISTS))).1 <> 412.
Proof. split; [reflexivity | discriminate]. Qed.

(** ** The changes feed *)

Lemma GetChanges_entry_ChangeRow (rt : GoRuntime) (c : ChangeRow) :
  0 <= cr_seq c <= uint64_max ->
  GetChanges_entry rt (ChangeRow_row c) = Done (ChangeRow_entry c).
Proof.
  intros Hseq. unfold GetChanges_entry, ChangeRow_row, ChangeRow_entry.
  cbn [Key Value asArr obind index lookup list_lookup asNum asStr].
  unfold goUint64. rewrite Qtrunc_inject_Z.
  replace ((0 <=? cr_seq c) && (cr_seq c <=? uint64_max)) with true
    by (symmetry; apply andb_true_iff; split; apply Z.leb_le; lia).
  destruct (cr_deleted c) as [[|] |]; reflexivity.
Qed.

Lemma traverse_GetChanges_entry (rt : GoRuntime) (cs : list ChangeRow) :
  Forall (fun c => 0 <= cr_seq c <= uint64_max) cs ->
  traverse (GetChanges_entry rt) (map ChangeRow_row cs)
    = Done (map ChangeRow_entry cs).
Proof.
  induction 1 as [| c cs Hc _ IH]; [reflexivity |].
  simpl. rewrite (GetChanges_entry_ChangeRow rt c Hc). simpl.
  rewrite IH. reflexivity.
Qed.

(** C3 (amended): for [since] below 2^64-1, [GetChanges] makes one
    call, to the changes view, with [startkey = [uuid, since+1]],
    [endkey = [uuid, {}]] and [descending]; [limit] is among the
    parameters only when it is positive.  Rows of the shape
    [[k0, seq]], [[id, rev, deleted?]] are mapped, in order, to entries
    [{seq, id, changes: [{rev}], deleted}], where [deleted] is true
    exactly when the value's third element is [true]. *)
Theorem GetChanges_query_and_entries
  (rt : GoRuntime) (db : Database) (uuid : string) (options : ChangesOptions)
  W (h : handler BucketE W) (w : W) :
  UUID db = Done uuid ->
  0 <= Since options < uint64_max ->
  let opts := GetChanges_opts uuid options in
  opts !! "startkey"
    = Some (JArr [JStr uuid; JNum (inject_Z (Since options + 1))]) /\
  opts !! "endkey" = Some (JArr [JStr uuid; JObj ∅]) /\
  opts !! "descending" = Some (JBool (Descending options)) /\
  opts !! "limit" = (if 0 <? Limit options
                     then Some (JNum (inject_Z (Limit options))) else None) /\
  (forall k, is_Some (opts !! k) ->
     In k ["startkey"; "endkey"; "descending"; "limit"]) /\
  (run h (GetChanges rt db options) w).2
    = [Call (Bucket_View "couchdb" "changes" opts)] /\
  (forall cs w1,
     Forall (fun c => 0 <= cr_seq c <= uint64_max) cs ->
     h _ (Bucket_View "couchdb" "changes" opts) w = (Ok (map ChangeRow_row cs), w1) ->
     (run h (GetChanges rt db options) w).1
       = (Done (Ok (map ChangeRow_entry cs)), w1)) /\
  (forall c, Deleted (ChangeRow_entry c) = true <->
     exists value, Value (ChangeRow_row c) = JArr value /\
                   value !! 2%nat = Some (JBool true)).
Proof.
  intros Hu Hsince opts.
  split; [| split; [| split; [| split; [| split; [| split; [| split]]]]]].
  - subst opts. unfold GetChanges_opts, wrap64.
    rewrite (Z.mod_small (Since options + 1) (2 ^ 64))
      by (unfold uint64_max in Hsince; lia).
    destruct (0 <? Limit options); simplify_map_eq; reflexivity.
  - subst opts. unfold GetChanges_opts.
    destruct (0 <? Limit options); simplify_map_eq; reflexivity.
  - subst opts. unfold GetChanges_opts.
    destruct (0 <? Limit options); simplify_map_eq; reflexivity.
  - subst opts. unfold GetChanges_opts.
    destruct (0 <? Limit options); simplify_map_eq; reflexivity.
  - intros k [v Hv]. subst opts. unfold GetChanges_opts in Hv.
    destruct (0 <? Limit options).
    + apply lookup_insert_Some in Hv as [[<- _] | [_ Hv]]; [simpl; tauto |].
      apply lookup_insert_Some in Hv as [[<- _] | [_ Hv]]; [simpl; tauto |].
      apply lookup_insert_Some in Hv as [[<- _] | [_ Hv]]; [simpl; tauto |].
      apply lookup_singleton_Some in Hv as [<- _]. simpl; tauto.
    + apply lookup_insert_Some in Hv as [[<- _] | [_ Hv]]; [simpl; tauto |].
      apply lookup_insert_Some in Hv as [[<- _] | [_ Hv]]; [simpl; tauto |].
      apply lookup_singleton_Some in Hv as [<- _]. simpl; tauto.
  - unfold GetChanges. rewrite Hu. simpl. fold opts.
    destruct (h _ (Bucket_View "couchdb" "changes" opts) w) as [[rows | e] w1];
      [| reflexivity].
    simpl. destruct (traverse (GetChanges_entry rt) rows); reflexivity.
  - intros cs w1 Hcs Hv. unfold GetChanges. rewrite Hu. simpl. fold opts.
    rewrite Hv. simpl. rewrite (traverse_GetChanges_entry rt cs Hcs).
    reflexivity.
  - intros c. unfold ChangeRow_entry, ChangeRow_row. simpl.
    destruct (cr_deleted c) as [[|] |]; simpl; split.
    + intros _. eexists. split; reflexivity.
    + reflexivity.
    + discriminate.
    + intros (value & [= <-] & Hv). discriminate Hv.
    + discriminate.
    + intros (value & [= <-] & Hv). discriminate Hv.
Qed.

Lemma GetChanges_query_and_entries_witness :
  UUID db_3f2a = Done "db/3f2a" /\
  (run bucket_handler
     (GetChanges runtime_example db_3f2a
        {| Since := 0; Limit := 10; Descending := false |}) bucket_db_a).1
    = (Done (Ok [ {| Seq := 1; ID := "a"; Changes := [ {["rev" := "1-8d1f"]} ];
                     Deleted := false |} ]), bucket_db_a).
Proof.
  split; [reflexivity |].
  assert (Hsince : 0 <= Since {| Since := 0; Limit := 10; Descending := false |}
                   < uint64_max) by (split; [discriminate | reflexivity]).
  pose proof (GetChanges_query_and_entries runtime_example db_3f2a "db/3f2a"
                {| Since := 0; Limit := 10; Descending := false |}
                Bucket bucket_handler bucket_db_a eq_refl Hsince)
    as (_ & _ & _ & _ & _ & _ & Hrows & _).
  apply (Hrows [ {| cr_rowid := "doc:db/3f2a:a"; cr_key0 := JStr "db/3f2a";
                    cr_seq := 1; cr_id := "a"; cr_rev := "1-8d1f";
                    cr_deleted := None |} ]).
  - repeat constructor; discriminate.
  - vm_compute. reflexivity.
Defined.

(** C3, as stated, fails for a limit of zero: the call to the view
    carries no [limit] parameter. *)
Lemma GetChanges_limit_zero_not_passed :
  (run bucket_handler
     (GetChanges runtime_example db_3f2a
        {| Since := 0; Limit := 0; Descending := false |}) bucket_db_a).2
    = [Call (Bucket_View "couchdb" "changes"
               (<["startkey" := JArr [JStr "db/3f2a"; JNum (inject_Z 1)]]>
                (<["endkey" := JArr [JStr "db/3f2a"; JObj ∅]]>
                 {["descending" := JBool false]})))] /\
  GetChanges_opts "db/3f2a" {| Since := 0; Limit := 0; Descending := false |}
    !! "limit" <> Some (JNum (inject_Z 0)).
Proof. split; [vm_compute; reflexivity | vm_compute; discriminate]. Qed.

(** Outside the range of C3: [since + 1] is a [uint64] addition, so at
    [since = 2^64-1] the start key wraps to [[uuid, 0]]. *)
Lemma GetChanges_opts_since_max (uuid : string) (limit : Z) (descending : bool) :
  GetChanges_opts uuid {| Since := uint64_max; Limit := limit;
                          Descending := descending |} !! "startkey"
    = Some (JArr [JStr uuid; JNum (inject_Z 0)]).
Proof.
  unfold GetChanges_opts. cbn [Since Limit Descending].
  change (wrap64 (uint64_max + 1)) with 0.
  destruct (0 <? limit); simplify_map_eq; reflexivity.
Qed.

(** ** Parsing [_revisions] *)

Lemma parseRevisions_loop_strings (rt : GoRuntime) (hs : list string) (n : Z) :
  parseRevisions_loop rt n (map JStr hs)
    = imap (fun i h => fmt_d (n - Z.of_nat i) +:+ "-" +:+ h) hs.
Proof.
  revert n. induction hs as [| h hs IH]; intros n; [reflexivity |].
  simpl. rewrite Z.sub_0_r. f_equal.
  rewrite IH. apply imap_ext. intros i x _. simpl.
  do 2 f_equal. lia.
Qed.

Lemma goInt_inject_Z (rt : GoRuntime) (n : Z) :
  - 2 ^ 63 <= n < 2 ^ 63 -> goInt rt (inject_Z n) = n.
Proof.
  intros Hn. unfold goInt. rewrite Qtrunc_inject_Z.
  replace ((- 2 ^ 63 <=? n) && (n <? 2 ^ 63)) with true; [reflexivity |].
  symmetry. apply andb_true_iff. split; [apply Z.leb_le | apply Z.ltb_lt]; lia.
Qed.

(** C6: a body whose [_revisions] is [{start: n, ids: [h0, h1, ...]}]
    with [n >= len(ids)] ([n] an [int], the ids strings) parses to
    ["n-h0", "(n-1)-h1", ...], one revision id per id; the result is
    nil when [_revisions] is absent, when it is not an object, and when
    [start < len(ids)]. *)
Theorem parseRevisions_spec (rt : GoRuntime) (body : Body) :
  (forall revisions n hs,
     body !! "_revisions" = Some (JObj revisions) ->
     revisions !! "start" = Some (JNum (inject_Z n)) ->
     revisions !! "ids" = Some (JArr (map JStr hs)) ->
     Z.of_nat (length hs) <= n < 2 ^ 63 ->
     parseRevisions rt body
       = Done (Some (imap (fun i h => fmt_d (n - Z.of_nat i) +:+ "-" +:+ h) hs)) /\
     length (imap (fun i h => fmt_d (n - Z.of_nat i) +:+ "-" +:+ h) hs)
       = length hs) /\
  (body !! "_revisions" = None -> parseRevisions rt body = Done None) /\
  (forall v, body !! "_revisions" = Some v -> (forall m, v <> JObj m) ->
     parseRevisions rt body = Done None) /\
  (forall revisions start ids,
     body !! "_revisions" = Some (JObj revisions) ->
     revisions !! "start" = Some (JNum start) ->
     revisions !! "ids" = Some (JArr ids) ->
     goInt rt start < Z.of_nat (length ids) ->
     parseRevisions rt body = Done None).
Proof.
  unfold parseRevisions, mapIndex.
  split; [intros revisions n hs Hr Hs Hi Hn; split | repeat split].
  - rewrite Hr, Hs, Hi. simpl. rewrite goInt_inject_Z by lia.
    rewrite length_map.
    destruct (Z.ltb_spec n (Z.of_nat (length hs))); [lia |].
    now rewrite parseRevisions_loop_strings.
  - apply length_imap.
  - now intros ->.
  - intros v -> Hv. destruct v; try reflexivity. now destruct (Hv m).
  - intros revisions start ids -> -> -> Hlt. simpl.
    destruct (Z.ltb_spec (goInt rt start) (Z.of_nat (length ids))); [reflexivity | lia].
Qed.

Lemma parseRevisions_spec_witness :
  parseRevisions runtime_example body_revisions_3
    = Done (Some ["3-8d1f"; "2-77c0"; "1-e3b2"]).
Proof.
  assert (Hr : body_revisions_3 !! "_revisions" = Some (JObj revisions_3))
    by (vm_compute; reflexivity).
  assert (Hs : revisions_3 !! "start" = Some (JNum (inject_Z 3)))
    by (vm_compute; reflexivity).
  assert (Hi : revisions_3 !! "ids"
               = Some (JArr (map JStr ["8d1f"; "77c0"; "e3b2"])))
    by (vm_compute; reflexivity).
  assert (Hn : Z.of_nat (length ["8d1f"; "77c0"; "e3b2"]) <= 3 < 2 ^ 63)
    by (split; [discriminate | reflexivity]).
  exact (proj1 (proj1 (parseRevisions_spec runtime_example body_revisions_3)
                  revisions_3 3 ["8d1f"; "77c0"; "e3b2"] Hr Hs Hi Hn)).
Defined.

(** ** Reading a JSON body *)

(** C8: with a Content-Type that is neither empty nor
    "application/json", [readJSONInto] fails with status 406 before the
    body is read or decoded; with an empty or "application/json"
    Content-Type it goes on to read the body, and whatever error it
    then returns has status 400. *)
Theorem readJSONInto_content_type
  (rq : Request) (into : Body) W (h : handler HttpE W) (w : W) :
  let contentType := Header_Get rq "Content-Type" in
  (contentType <> "" -> contentType <> "application/json" ->
   run h (readJSONInto rq into) w
     = (Done (into, Some (HTTPError 406 ("Invalid content type " +:+ contentType))),
        w, [])) /\
  (contentType = "" \/ contentType = "application/json" ->
   exists v err t,
     (run h (readJSONInto rq into) w).1.1 = Done (v, err) /\
     (run h (readJSONInto rq into) w).2 = Call ReadAll_Body :: t /\
     (err = None \/ exists message, err = Some (HTTPError 400 message))).
Proof.
  intros contentType. unfold readJSONInto. fold contentType. split.
  - intros H1 H2.
    apply String.eqb_neq in H1, H2. rewrite H1, H2. reflexivity.
  - intros Hct.
    assert (Hb : negb (contentType =? "")%string
                 && negb (contentType =? "application/json")%string = false).
    { destruct Hct as [-> | ->]; reflexivity. }
    rewrite Hb. simpl.
    destruct (h _ ReadAll_Body w) as [[data | e] w1]; simpl.
    + destruct (h _ (Json_Unmarshal data into) w1) as [[into' [e |]] w2]; simpl.
      * eexists _, _, _. repeat split. right. eexists. reflexivity.
      * eexists _, _, _. repeat split. now left.
    + eexists _, _, _. repeat split. right. eexists. reflexivity.
Qed.

Lemma readJSONInto_content_type_witness :
  run (http_handler env_push) (readJSONInto rq_text_plain ∅) emptyResponse
    = (Done (∅, Some (HTTPError 406 "Invalid content type text/plain")),
       emptyResponse, []) /\
  (run (http_handler env_push) (readJSONInto rq_push ∅) emptyResponse).2
    = [Call ReadAll_Body; Call (Json_Unmarshal "{}" ∅)].
Proof.
  split.
  - apply (proj1 (readJSONInto_content_type rq_text_plain ∅ Response
                    (http_handler env_push) emptyResponse));
      discriminate.
  - destruct (proj2 (readJSONInto_content_type rq_push ∅ Response
                       (http_handler env_push) emptyResponse)
                (or_intror eq_refl)) as (v & err & t & _ & _ & _).
    reflexivity.
Defined.

(** ** The UUID and the keys of the views *)

Lemma append_cons (c : ascii) (a b : string) :
  String c a +:+ b = String c (a +:+ b).
Proof. reflexivity. Qed.

Lemma append_assoc (a b c : string) : (a +:+ b) +:+ c = a +:+ (b +:+ c).
Proof.
  induction a as [| x a IH]; [reflexivity |].
  rewrite !append_cons. now f_equal.
Qed.

Lemma length_append (a b : string) :
  String.length (a +:+ b) = (String.length a + String.length b)%nat.
Proof.
  induction a as [| x a IH]; [reflexivity |].
  rewrite append_cons. simpl. now f_equal.
Qed.

Lemma substring_prefix (a b : string) :
  substring 0 (String.length a) (a +:+ b) = a.
Proof.
  induction a as [| x a IH].
  - change ("" +:+ b) with b. destruct b; reflexivity.
  - rewrite append_cons. simpl. now f_equal.
Qed.

(** The UUID of a prefix as [CreateDatabase] builds it is the name, a
    slash and the generated uuid. *)
Lemma UUID_of_created_prefix (name uuid : string) :
  UUID {| Name := name;
          DocPrefix := "doc:" +:+ name +:+ "/" +:+ uuid +:+ ":" |}
    = Done (name +:+ "/" +:+ uuid).
Proof.
  unfold UUID. cbn [DocPrefix].
  replace (name +:+ "/" +:+ uuid +:+ ":")
    with ((name +:+ "/" +:+ uuid) +:+ ":")
    by (now rewrite !append_assoc).
  set (x := name +:+ "/" +:+ uuid).
  change ("doc:" +:+ x +:+ ":")
    with (String "d" (String "o" (String "c" (String ":" (x +:+ ":"))))).
  cbn [String.length].
  rewrite length_append. cbn [String.length].
  destruct (Nat.ltb_spec (S (S (S (S (String.length x + 1))))) 5); [lia |].
  replace (S (S (S (S (String.length x + 1)))) - 5)%nat
    with (String.length x) by lia.
  cbn [substring]. f_equal. apply substring_prefix.
Qed.

Lemma splitOn_not_nil (sep : ascii) (s : string) : splitOn sep s <> [].
Proof.
  destruct s as [| c s]; simpl; [discriminate |].
  destruct (Ascii.eqb c sep); [discriminate |].
  destruct (splitOn sep s); discriminate.
Qed.

Lemma splitOn_noColon (s : string) :
  noColon s = true -> splitOn ":" s = [s].
Proof.
  unfold noColon. induction s as [| c s IH]; simpl; [reflexivity |].
  intros H. apply andb_true_iff in H as [Hc Hs].
  apply negb_true_iff in Hc. rewrite Hc, (IH Hs). reflexivity.
Qed.

Lemma splitOn_append (a b : string) :
  noColon a = true ->
  splitOn ":" (a +:+ ":" +:+ b) = a :: splitOn ":" b.
Proof.
  unfold noColon. induction a as [| c a IH]; simpl; [reflexivity |].
  intros H. apply andb_true_iff in H as [Hc Ha].
  apply negb_true_iff in Hc. rewrite Hc, (IH Ha). reflexivity.
Qed.

Lemma noColon_append (a b : string) :
  noColon a = true -> noColon b = true -> noColon (a +:+ b) = true.
Proof.
  unfold noColon. induction a as [| c a IH]; simpl; [tauto |].
  intros H Hb. apply andb_true_iff in H as [Hc Ha].
  rewrite Hc. simpl. now apply IH.
Qed.

Lemma kDBNameClass_not_colon (c : ascii) :
  kDBNameClass c = true -> Ascii.eqb c ":" = false.
Proof.
  intros Hc. destruct (Ascii.eqb_spec c ":") as [-> | _]; [| reflexivity].
  discriminate Hc.
Qed.

Lemma permittedName_noColon (s : string) :
  permittedName s = true -> noColon s = true.
Proof.
  unfold permittedName, noColon. intros H.
  apply andb_true_iff in H as [_ H].
  induction (list_ascii_of_string s) as [| c l IH]; [reflexivity |].
  simpl in *. apply andb_true_iff in H as [Hc Hl].
  rewrite (kDBNameClass_not_colon _ Hc). simpl. now apply IH.
Qed.

(** How the views cut the key of a stored document into pieces. *)
Lemma jsSplit3_realDocID (name uuid docid : string) :
  noColon name = true -> noColon uuid = true ->
  jsSplit3 (realDocID {| Name := name;
                         DocPrefix := "doc:" +:+ name +:+ "/" +:+ uuid +:+ ":" |}
              docid)
    = ["doc"; name +:+ "/" +:+ uuid; hd "" (splitOn ":" docid)].
Proof.
  intros Hn Hu. unfold jsSplit3, realDocID. cbn [DocPrefix].
  replace (("doc:" +:+ name +:+ "/" +:+ uuid +:+ ":") +:+ docid)
    with ("doc" +:+ ":" +:+ ((name +:+ "/" +:+ uuid) +:+ ":" +:+ docid))
    by (simpl; now rewrite !append_assoc).
  rewrite splitOn_append by reflexivity.
  rewrite splitOn_append by (apply noColon_append; [| apply noColon_append]; auto).
  pose proof (splitOn_not_nil ":" docid) as Hd.
  destruct (splitOn ":" docid) as [| p ps]; [contradiction |]. reflexivity.
Qed.

Lemma CreateDatabase_handle (name : string) W (h : handler BucketE W)
  (w w' : W) (db : Database) (t : list (callrec BucketE)) :
  run h (CreateDatabase name) w = (Done (Ok db), w', t) ->
  exists w0,
    db = {| Name := name;
            DocPrefix := "doc:" +:+ name +:+ "/" +:+ (h _ createUUID w0).1 +:+ ":" |}.
Proof.
  intros Hrun. unfold CreateDatabase in Hrun.
  destruct (decide (dbInternalDocName name = "")) as [_ | _];
    [discriminate Hrun |].
  simpl in Hrun.
  destruct (h _ (Bucket_Get (dbInternalDocName name)) w) as [[db0 | e] w1];
    simpl in Hrun; [discriminate Hrun |].
  exists w1.
  destruct (h _ createUUID w1) as [uuid w2]. simpl in *.
  destruct (h _ (Bucket_Set _ 0 _) w2) as [[e' |] w3]; simpl in Hrun;
    [discriminate Hrun |].
  now injection Hrun as <- _ _.
Qed.

(** Where the UUID and the keys of the views do agree: a handle that
    [CreateDatabase] returns for a permitted name [n], with a generated
    uuid [u] free of colons, has [UUID() = n + "/" + u].  Every stored
    document key [realDocID(d)] is cut by the views into
    ["doc", UUID(), d'], where [d'] is [d] up to its first colon, hence
    [d] itself when [d] has no colon; the first key component that
    either view map emits is then [UUID()], which is also the first
    component of the start and end keys of [allDocIDsOpts] and of the
    call [GetChanges] makes. *)
Lemma created_UUID_is_view_key
  (n : string) W (h : handler BucketE W) (w w' : W) (db : Database)
  (t : list (callrec BucketE)) :
  permittedName n = true ->
  (forall w0, noColon (h _ createUUID w0).1 = true) ->
  run h (CreateDatabase n) w = (Done (Ok db), w', t) ->
  exists u,
    DocPrefix db = "doc:" +:+ n +:+ "/" +:+ u +:+ ":" /\
    UUID db = Done (n +:+ "/" +:+ u) /\
    (forall d, jsSplit3 (realDocID db d)
                 = ["doc"; n +:+ "/" +:+ u; hd "" (splitOn ":" d)]) /\
    (forall d, noColon d = true ->
               jsSplit3 (realDocID db d) = ["doc"; n +:+ "/" +:+ u; d]) /\
    (forall d doc, exists k1,
        alldocs_map doc (realDocID db d)
          = Some (JArr [JStr (n +:+ "/" +:+ u); k1], JNull)) /\
    (forall d doc k v, changes_map doc (realDocID db d) = Some (k, v) ->
        exists seq, k = JArr [JStr (n +:+ "/" +:+ u); seq]) /\
    (forall reduce, exists opts,
        allDocIDsOpts db reduce = Done opts /\
        opts !! "startkey" = Some (JArr [JStr (n +:+ "/" +:+ u)]) /\
        opts !! "endkey" = Some (JArr [JStr (n +:+ "/" +:+ u); JObj ∅])) /\
    (forall rt options W1 (h1 : handler BucketE W1) (w1 : W1),
        (run h1 (GetChanges rt db options) w1).2
          = [Call (Bucket_View "couchdb" "changes"
                     (GetChanges_opts (n +:+ "/" +:+ u) options))]).
Proof.
  intros Hn Hu Hrun.
  destruct (CreateDatabase_handle _ _ _ _ _ _ _ Hrun) as [w0 ->].
  specialize (Hu w0). set (u := (h _ createUUID w0).1) in *.
  pose proof (permittedName_noColon _ Hn) as Hnc.
  pose proof (UUID_of_created_prefix n u) as HU.
  exists u. repeat split.
  - exact HU.
  - intros d. now apply jsSplit3_realDocID.
  - intros d Hd. rewrite jsSplit3_realDocID by assumption.
    now rewrite (splitOn_noColon _ Hd).
  - intros d doc. unfold alldocs_map.
    rewrite jsSplit3_realDocID by assumption. simpl. eexists. reflexivity.
  - intros d doc k v. unfold changes_map.
    rewrite jsSplit3_realDocID by assumption. simpl.
    destruct doc; try discriminate;
      (destruct (jsProp _ "sequence") as [sequence |]; [| discriminate]);
      (destruct (jsProp _ "current") as [[] |]; try discriminate);
      intros [= <- _]; eexists; reflexivity.
  - intros reduce. unfold allDocIDsOpts. rewrite HU. simpl.
    eexists. split; [reflexivity |]. split; simplify_map_eq; reflexivity.
  - intros rt options W1 h1 w1. unfold GetChanges. rewrite HU. simpl.
    destruct (h1 _ (Bucket_View _ _ _) w1) as [[rows | e] w2]; [| reflexivity].
    simpl. destruct (traverse (GetChanges_entry rt) rows); reflexivity.
Qed.

Lemma created_UUID_is_view_key_witness :
  exists u,
    UUID db_3f2a = Done ("db" +:+ "/" +:+ u) /\
    jsSplit3 (realDocID db_3f2a "a") = ["doc"; "db" +:+ "/" +:+ u; "a"].
Proof.
  pose (h := (fun X e b =>
                bucket_handler X e
                  {| kv := kv b; uuids := ["3f2a"];
                     view_error := view_error b |}) : handler BucketE Bucket).
  assert (Hrun : run h (CreateDatabase "db") emptyBucket
                 = (Done (Ok db_3f2a),
                    {| kv := {["cdb:db" := encodeDatabase db_3f2a]};
                       uuids := ["3f2a"]; view_error := None |},
                    [Call (Bucket_Get "cdb:db"); Call createUUID;
                     Call (Bucket_Set "cdb:db" 0 db_3f2a)]))
    by (vm_compute; reflexivity).
  destruct (created_UUID_is_view_key "db" Bucket h emptyBucket _ db_3f2a _
              eq_refl (fun _ => eq_refl) Hrun)
    as (u & _ & HU & _ & Hsplit & _).
  exists u. split; [exact HU | exact (Hsplit "a" eq_refl)].
Defined.

(** C9 (the code departs from it): a colon in the document id or in
    the database name breaks the agreement.  In database "db" the key
    of document "x:y" is cut into ["doc", UUID(), "x"], the all_docs
    view emits ["db/3f2a", "x"], and [AllDocIDs] lists "x", an id that
    no document has.  The name "a:b" passes the name check; the handle
    has [UUID() = "a:b/3f2a"], but the key of its document "d" is cut
    into ["doc", "a", "b/3f2a"], so the first component the views emit
    is "a", not [UUID()], and [AllDocIDs] finds no document. *)
Theorem view_keys_break_on_colon :
  (run bucket_handler (CreateDatabase "db") emptyBucket).1.1 = Done (Ok db_3f2a) /\
  UUID db_3f2a = Done "db/3f2a" /\
  realDocID db_3f2a "x:y" = "doc:db/3f2a:x:y" /\
  jsSplit3 (realDocID db_3f2a "x:y") = ["doc"; "db/3f2a"; "x"] /\
  jsSplit3 (realDocID db_3f2a "x:y") <> ["doc"; "db/3f2a"; "x:y"] /\
  alldocs_map (docRecord "x:y" "1-8d1f" 1) (realDocID db_3f2a "x:y")
    = Some (JArr [JStr "db/3f2a"; JStr "x"], JNull) /\
  (run bucket_handler (AllDocIDs db_3f2a) bucket_db_xy).1.1 = Done (Ok ["x"]) /\
  (run bucket_handler (CreateDatabase "a:b") emptyBucket).1.1 = Done (Ok db_a_b) /\
  UUID db_a_b = Done "a:b/3f2a" /\
  jsSplit3 (realDocID db_a_b "d") = ["doc"; "a"; "b/3f2a"] /\
  alldocs_map (docRecord "d" "1-8d1f" 1) (realDocID db_a_b "d")
    = Some (JArr [JStr "a"; JStr "b/3f2a"], JNull) /\
  (run bucket_handler (AllDocIDs db_a_b) bucket_db_a_b).1.1 = Done (Ok []) /\
  changes_map (docRecord "d" "1-8d1f" 1) (realDocID db_a_b "d")
    = Some (JArr [JStr "a"; JNum (inject_Z 1)],
            JArr [JStr "d"; JStr "1-8d1f"]) /\
  (run bucket_handler
     (GetChanges runtime_example db_a_b
        {| Since := 0; Limit := 0; Descending := false |}) bucket_db_a_b).1.1
    = Done (Ok []).
Proof.
  vm_compute. repeat split; try reflexivity. discriminate.
Qed.

(** ** PUT of a document *)

Lemma run_writeJSON_done (value : JSON) W (h : handler HttpE W) (w : W) :
  (run h (writeJSON value) w).1.1 = Done tt.
Proof.
  unfold writeJSON. simpl.
  destruct (h _ (Json_Marshal value) w) as [[json | e] w1]; simpl.
  - destruct (h _ (RW_Header_Set _ _) w1) as [[] w2]. simpl.
    destruct (h _ (RW_Write json) w2) as [[] w3]. reflexivity.
  - destruct (h _ (RW_WriteHeader _) w1) as [[] w2]. reflexivity.
Qed.

(** [writeError] never panics; for a non-nil error its first call sets
    the status that [ErrorAsHTTPStatus] gives, and it never calls the
    revision engine. *)
Lemma run_writeError (err : option error) W (h : handler HttpE W) (w : W) :
  (run h (writeError err) w).1.1 = Done tt /\
  match err with
  | None => (run h (writeError err) w).2 = []
  | Some _ =>
      exists t, (run h (writeError err) w).2
                  = Call (RW_WriteHeader (ErrorAsHTTPStatus err).1) :: t
  end.
Proof.
  destruct err as [e |]; [| split; reflexivity].
  unfold writeError.
  destruct (ErrorAsHTTPStatus (Some e)) as [status message]. cbn [fst].
  rewrite run_bind, run_call.
  pose proof (run_writeJSON_done
                (JObj (<["error" := JNum (inject_Z status)]>
                       {["reason" := JStr message]}))
                W h (h _ (RW_WriteHeader status) w).2) as Hj.
  destruct (run h (writeJSON _) _) as [[o w2] t]. simpl in *. subst o.
  split; [reflexivity | eexists; reflexivity].
Qed.




(** The same push against a client and an engine that accept
    everything: the calls in order, and the response the client sees,
    whose status is the 400 set first. *)
Lemma HandlePutDoc_bad_revisions_response :
  run (http_handler env_push) (HandlePutDoc runtime_example db_3f2a rq_push "a")
    emptyResponse
  = (Done tt,
     {| resp_status := Some 400;
        resp_headers := {["Content-Type" := "application/json"]};
        resp_body := "{}" |},
     [Call ReadAll_Body; Call (Json_Unmarshal "{}" ∅);
      Call (RW_WriteHeader 400);
      Call (Json_Marshal (JObj (<["error" := JNum (inject_Z 400)]>
                                {["reason" := JStr "Bad _revisions"]})));
      Call (RW_Header_Set "Content-Type" "application/json");
      Call (RW_Write "{}");
      Call (Db_PutExistingRev db_3f2a "a" ∅ None);
      Call (RW_WriteHeader 201)]).
Proof. vm_compute. reflexivity. Qed.

(** * Further properties of [database.go] *)

(** ** Names and keys *)

(** X1: the name check depends only on whether the name has a character
    of the class.  A name with none (the empty name too) is refused by
    [GetDatabase] and [CreateDatabase] with status 400 and no bucket
    call; any other name has the record key "cdb:" + name, which both
    read first. *)
Theorem name_check_decides_first_call
  (name : string) W (h : handler BucketE W) (w : W) :
  if existsb kDBNameClass (list_ascii_of_string name) then
    dbInternalDocName name = "cdb:" +:+ name /\
    exists t1 t2,
      (run h (GetDatabase name) w).2 = Call (Bucket_Get ("cdb:" +:+ name)) :: t1 /\
      (run h (CreateDatabase name) w).2 = Call (Bucket_Get ("cdb:" +:+ name)) :: t2
  else
    dbInternalDocName name = "" /\
    run h (GetDatabase name) w
      = (Done (Fail (HTTPError 400 "Illegal database name")), w, []) /\
    run h (CreateDatabase name) w
      = (Done (Fail (HTTPError 400 "Illegal database name")), w, []).
Proof.
  rewrite <- MatchString_existsb.
  destruct (MatchString name) eqn:Hm.
  - split; [now apply dbInternalDocName_accepted |].
    now apply some_class_character_accepted.
  - split; [now apply dbInternalDocName_rejected |].
    now apply no_class_character_rejected.
Qed.

Lemma noColon_with_colon (a b : string) : noColon (a +:+ ":" +:+ b) = false.
Proof.
  unfold noColon. induction a as [| c a IH]; [reflexivity |].
  rewrite append_cons. simpl. rewrite IH. apply andb_false_r.
Qed.

Lemma append_inj_l (a b c : string) : a +:+ b = a +:+ c -> b = c.
Proof.
  induction a as [| x a IH]; [trivial |].
  rewrite !append_cons. intros [= H]. now apply IH.
Qed.

(** X2: for permitted names the three kinds of key never meet: a
    database record key is no counter key and no document key, a counter
    key is no document key, and different names have different record
    keys. *)
Theorem permitted_keys_are_disjoint (n1 n2 uuid docid : string) :
  permittedName n1 = true -> permittedName n2 = true ->
  let db2 := {| Name := n2;
                DocPrefix := "doc:" +:+ n2 +:+ "/" +:+ uuid +:+ ":" |} in
  dbInternalDocName n1 <> sequenceDocID db2 /\
  dbInternalDocName n1 <> realDocID db2 docid /\
  sequenceDocID db2 <> realDocID db2 docid /\
  (dbInternalDocName n1 = dbInternalDocName n2 -> n1 = n2).
Proof.
  intros H1 H2 db2. unfold sequenceDocID, realDocID. cbn [Name DocPrefix db2].
  rewrite (dbInternalDocName_accepted _ (permittedName_MatchString _ H1)).
  rewrite (dbInternalDocName_accepted _ (permittedName_MatchString _ H2)).
  repeat split.
  - rewrite append_assoc. intros H%append_inj_l.
    pose proof (permittedName_noColon _ H1) as Hc.
    rewrite H in Hc.
    change (n2 +:+ ":nextsequence") with (n2 +:+ ":" +:+ "nextsequence") in Hc.
    now rewrite noColon_with_colon in Hc.
  - discriminate.
  - discriminate.
  - apply append_inj_l.
Qed.

Lemma permitted_keys_are_disjoint_witness :
  dbInternalDocName "db" <> sequenceDocID db_3f2a /\
  dbInternalDocName "db" <> realDocID db_3f2a "a".
Proof.
  destruct (permitted_keys_are_disjoint "db" "db" "3f2a" "a" eq_refl eq_refl)
    as (H1 & H2 & _).
  split; [exact H1 | exact H2].
Defined.

(** X3: an accepted name followed by ":nextsequence" is accepted too,
    and the record key of that second name is the counter key of the
    first. *)
Theorem nextsequence_name_meets_counter_key (name : string) (prefix : string) :
  MatchString name = true ->
  MatchString (name +:+ ":nextsequence") = true /\
  dbInternalDocName (name +:+ ":nextsequence")
    = sequenceDocID {| Name := name; DocPrefix := prefix |}.
Proof.
  intros Hm.
  assert (Hm' : MatchString (name +:+ ":nextsequence") = true).
  { rewrite MatchString_existsb in *.
    induction name as [| c s IH]; [discriminate Hm |].
    rewrite append_cons. simpl in *.
    destruct (kDBNameClass c); [reflexivity | now apply IH]. }
  split; [exact Hm' |].
  unfold sequenceDocID. cbn [Name].
  rewrite (dbInternalDocName_accepted _ Hm), (dbInternalDocName_accepted _ Hm').
  now rewrite append_assoc.
Qed.

Lemma nextsequence_name_meets_counter_key_witness :
  dbInternalDocName "db:nextsequence" = sequenceDocID db_3f2a.
Proof.
  exact (proj2 (nextsequence_name_meets_counter_key "db" "doc:db/3f2a:" eq_refl)).
Defined.

(** ** The views and the keys they index *)

Lemma not_a_doc_key (doc : JSON) (id : string) :
  (forall p1 p2, jsSplit3 id <> ["doc"; p1; p2]) ->
  alldocs_map doc id = None /\ changes_map doc id = None.
Proof.
  intros Hid. unfold alldocs_map, changes_map.
  destruct (jsSplit3 id) as [| p0 [| p1 [| p2 [| p3 ps]]]];
    try (split; [reflexivity |];
         destruct doc; try reflexivity;
         destruct (jsProp _ "sequence"); reflexivity).
  destruct (String.eqb_spec p0 "doc") as [-> | _].
  - now destruct (Hid p1 p2).
  - split; [reflexivity |].
    destruct doc; try reflexivity; destruct (jsProp _ "sequence"); reflexivity.
Qed.

Lemma jsSplit3_cdb (s : string) p1 p2 : jsSplit3 ("cdb:" +:+ s) <> ["doc"; p1; p2].
Proof.
  unfold jsSplit3.
  change ("cdb:" +:+ s) with ("cdb" +:+ ":" +:+ s).
  rewrite splitOn_append by reflexivity.
  destruct (splitOn ":" s) as [| q [| q' qs]]; discriminate.
Qed.

(** X4: neither view indexes the record or the counter of a database,
    whatever its name and whatever is stored there: both map functions
    emit nothing for these keys. *)
Theorem views_skip_database_keys (name prefix : string) (doc : JSON) :
  let db := {| Name := name; DocPrefix := prefix |} in
  alldocs_map doc (dbInternalDocName name) = None /\
  changes_map doc (dbInternalDocName name) = None /\
  alldocs_map doc (sequenceDocID db) = None /\
  changes_map doc (sequenceDocID db) = None.
Proof.
  intros db. unfold sequenceDocID. cbn [Name db].
  destruct (MatchString name) eqn:Hm.
  - rewrite (dbInternalDocName_accepted _ Hm), append_assoc.
    destruct (not_a_doc_key doc ("cdb:" +:+ name) (jsSplit3_cdb name)).
    destruct (not_a_doc_key doc ("cdb:" +:+ name +:+ ":nextsequence")
                (jsSplit3_cdb (name +:+ ":nextsequence"))).
    auto.
  - rewrite (dbInternalDocName_rejected _ Hm).
    assert (H1 : forall p1 p2, jsSplit3 "" <> ["doc"; p1; p2]) by discriminate.
    assert (H2 : forall p1 p2, jsSplit3 ("" +:+ ":nextsequence") <> ["doc"; p1; p2])
      by discriminate.
    destruct (not_a_doc_key doc _ H1). destruct (not_a_doc_key doc _ H2). auto.
Qed.

(** ** What the read operations never do *)

(** X5: [GetDatabase], [AllDocIDs], [DocCount], [GetChanges] and
    [LastSequence] only read: against any bucket, every call they make
    is a [Get], a [View], or an [Incr] by zero. *)
Theorem read_operations_only_read
  (rt : GoRuntime) (db : Database) (name : string) (options : ChangesOptions)
  W (h : handler BucketE W) (w : W) :
  Forall (fun c => readOnlyCall c = true) (run h (GetDatabase name) w).2 /\
  Forall (fun c => readOnlyCall c = true) (run h (AllDocIDs db) w).2 /\
  Forall (fun c => readOnlyCall c = true) (run h (DocCount rt db) w).2 /\
  Forall (fun c => readOnlyCall c = true) (run h (GetChanges rt db options) w).2 /\
  Forall (fun c => readOnlyCall c = true) (run h (LastSequence db) w).2.
Proof.
  repeat split.
  - unfold GetDatabase.
    destruct (decide (dbInternalDocName name = "")); [constructor |].
    simpl. destruct (h _ (Bucket_Get _) w) as [[d | e] w1]; repeat constructor.
  - unfold AllDocIDs. destruct (allDocIDsOpts db false) as [opts | m];
      simpl; [| constructor].
    destruct (h _ (Bucket_View _ _ opts) w) as [[rows | e] w1]; simpl;
      [| repeat constructor].
    destruct (traverse _ rows); repeat constructor.
  - unfold DocCount. destruct (allDocIDsOpts db true) as [opts | m];
      simpl; [| constructor].
    destruct (h _ (Bucket_View _ _ opts) w) as [[rows | e] w1]; simpl;
      [| repeat constructor].
    destruct rows as [| row rows]; simpl; [repeat constructor |].
    destruct (asNum (Value row)); repeat constructor.
  - unfold GetChanges. destruct (UUID db) as [uuid | m]; simpl; [| constructor].
    destruct (h _ (Bucket_View _ _ _) w) as [[rows | e] w1]; simpl;
      [| repeat constructor].
    destruct (traverse _ rows); repeat constructor.
  - rewrite LastSequence_is_Incr_0. repeat constructor.
Qed.

(** ** The UUID slice *)

Lemma substring_all (s : string) : substring 0 (String.length s) s = s.
Proof. induction s as [| c s IH]; [reflexivity |]. simpl. now f_equal. Qed.

Lemma substring_split (n : nat) (s : string) :
  (n <= String.length s)%nat ->
  s = substring 0 n s +:+ substring n (String.length s - n) s.
Proof.
  revert s. induction n as [| n IH]; intros s Hn.
  - rewrite Nat.sub_0_r, substring_all. now destruct s.
  - destruct s as [| c s]; [simpl in Hn; lia |].
    simpl in *. rewrite append_cons. f_equal. apply IH. lia.
Qed.

Lemma length_substring (n m : nat) (s : string) :
  (n + m <= String.length s)%nat -> String.length (substring n m s) = m.
Proof.
  revert m s. induction n as [| n IH]; intros m s H.
  - revert s H. induction m as [| m IHm]; intros s H.
    + now destruct s.
    + destruct s as [| c s]; [simpl in H; lia |]. simpl in *. f_equal.
      apply IHm. lia.
  - destruct s as [| c s]; [simpl in H; lia |]. simpl in *. apply IH. lia.
Qed.

Lemma substring_append_3 (n m : nat) (s : string) :
  (n + m <= String.length s)%nat ->
  s = substring 0 n s +:+ substring n m s
      +:+ substring (n + m) (String.length s - (n + m)) s.
Proof.
  revert s. induction n as [| n IH]; intros s H.
  - simpl. change ("" +:+ ?x) with x.
    replace (substring 0 0 s) with "" by (now destruct s).
    apply (substring_split m s). lia.
  - destruct s as [| c s]; [simpl in H; lia |].
    simpl in *. rewrite append_cons. f_equal. apply IH. lia.
Qed.

(** X6: [UUID] panics exactly when the prefix has fewer than five
    bytes; otherwise the prefix is four bytes, the UUID, and one last
    byte, whatever those bytes are. *)
Theorem UUID_slice (db : Database) :
  if (String.length (DocPrefix db) <? 5)%nat then
    exists msg, UUID db = Panicked msg
  else
    exists head uuid last,
      UUID db = Done uuid /\
      DocPrefix db = head +:+ uuid +:+ last /\
      String.length head = 4%nat /\ String.length last = 1%nat.
Proof.
  unfold UUID.
  destruct (Nat.ltb_spec (String.length (DocPrefix db)) 5) as [Hlt | Hge].
  - eexists. reflexivity.
  - set (p := DocPrefix db) in *.
    exists (substring 0 4 p), (substring 4 (String.length p - 5) p),
           (substring (String.length p - 1) 1 p).
    split; [reflexivity |]. split; [| split].
    + pose proof (substring_append_3 4 (String.length p - 5) p) as H.
      replace (4 + (String.length p - 5))%nat with (String.length p - 1)%nat in H
        by lia.
      replace (String.length p - (String.length p - 1))%nat with 1%nat in H by lia.
      apply H. lia.
    + apply length_substring. lia.
    + apply length_substring. lia.
Qed.

(** X7: with a prefix shorter than five bytes, [AllDocIDs], [DocCount],
    [GetChanges] and [Delete] panic before they call the bucket. *)
Theorem short_prefix_panics_before_any_call
  (rt : GoRuntime) (db : Database) (options : ChangesOptions)
  W (h : handler BucketE W) (w : W) :
  (String.length (DocPrefix db) < 5)%nat ->
  exists msg,
    run h (AllDocIDs db) w = (Panicked msg, w, []) /\
    run h (DocCount rt db) w = (Panicked msg, w, []) /\
    run h (GetChanges rt db options) w = (Panicked msg, w, []) /\
    run h (Delete db) w = (Panicked msg, w, []).
Proof.
  intros Hlen.
  assert (HU : UUID db = Panicked "slice bounds out of range").
  { unfold UUID. destruct (Nat.ltb_spec (String.length (DocPrefix db)) 5);
      [reflexivity | lia]. }
  exists "slice bounds out of range".
  unfold Delete, AllDocIDs, DocCount, GetChanges, allDocIDsOpts.
  rewrite HU. repeat split; reflexivity.
Qed.

Lemma short_prefix_panics_before_any_call_witness :
  exists msg, run bucket_handler (Delete db_no_prefix) bucket_db_a
              = (Panicked msg, bucket_db_a, []).
Proof.
  destruct (short_prefix_panics_before_any_call runtime_example db_no_prefix
              {| Since := 0; Limit := 0; Descending := false |}
              Bucket bucket_handler bucket_db_a ltac:(simpl; lia))
    as (msg & _ & _ & _ & H).
  exists msg. exact H.
Defined.

(** X8: [Delete] stops at the first failure.  When the view query fails
    it returns that error having deleted nothing; when the removal of
    the database record fails it returns that error, and neither the
    counter nor any document is asked to be removed. *)
Theorem Delete_stops_at_first_failure
  (db : Database) (uuid : string) W (h : handler BucketE W) (w : W) :
  UUID db = Done uuid ->
  let view := Bucket_View "couchdb" "all_docs"
                (<["startkey" := JArr [JStr uuid]]>
                 (<["endkey" := JArr [JStr uuid; JObj ∅]]>
                  {["reduce" := JBool false]})) in
  (forall e w1, h _ view w = (Fail e, w1) ->
     run h (Delete db) w = (Done (Some e), w1, [Call view])) /\
  (forall rows docids w1 e w2,
     h _ view w = (Ok rows, w1) ->
     traverse (fun row => obind (asArr (Key row)) (fun key =>
                          obind (index key 1) asStr)) rows = Done docids ->
     h _ (Bucket_Delete (dbInternalDocName (Name db))) w1 = (Some e, w2) ->
     run h (Delete db) w
       = (Done (Some e), w2,
          [Call view; Call (Bucket_Delete (dbInternalDocName (Name db)))])).
Proof.
  intros HU view. split.
  - intros e w1 Hv. unfold Delete, AllDocIDs, allDocIDsOpts. rewrite HU.
    simpl. fold view. rewrite Hv. reflexivity.
  - intros rows docids w1 e w2 Hv Hd Hdel. unfold Delete.
    rewrite run_bind, (AllDocIDs_rows _ _ _ _ _ _ _ _ HU Hv Hd).
    rewrite run_bind, run_call, Hdel. reflexivity.
Qed.

Lemma Delete_stops_at_first_failure_witness :
  run bucket_handler (Delete db_3f2a) bucket_views_down
    = (Done (Some (HTTPError StatusInternalServerError "views down")),
       bucket_views_down,
       [Call (Bucket_View "couchdb" "all_docs"
                (<["startkey" := JArr [JStr "db/3f2a"]]>
                 (<["endkey" := JArr [JStr "db/3f2a"; JObj ∅]]>
                  {["reduce" := JBool false]})))]) /\
  (run bucket_handler (Delete db_3f2a) emptyBucket).1
    = (Done (Some (MCResponse KEY_ENOENT)), emptyBucket).
Proof.
  assert (HU : UUID db_3f2a = Done "db/3f2a") by reflexivity.
  split.
  - apply (proj1 (Delete_stops_at_first_failure db_3f2a "db/3f2a" Bucket
                    bucket_handler bucket_views_down HU)).
    vm_compute. reflexivity.
  - rewrite (proj2 (Delete_stops_at_first_failure db_3f2a "db/3f2a" Bucket
                      bucket_handler emptyBucket HU)
               [] [] emptyBucket (MCResponse KEY_ENOENT) emptyBucket);
      [reflexivity | vm_compute; reflexivity | reflexivity
       | vm_compute; reflexivity].
Defined.

(** ** Rows and entries *)

Lemma traverse_Forall2 {A B} (f : A -> outcome B) (l : list A) (l' : list B) :
  traverse f l = Done l' -> Forall2 (fun x y => f x = Done y) l l'.
Proof.
  revert l'. induction l as [| x l IH]; intros l' H; simpl in H.
  - injection H as <-. constructor.
  - destruct (f x) as [y | m] eqn:Hx; [| discriminate H]. simpl in H.
    destruct (traverse f l) as [ys | m]; [| discriminate H]. simpl in H.
    injection H as <-. constructor; [exact Hx | now apply IH].
Qed.

(** X9: [GetChanges] hands back the error of the view as it is; and
    when it returns entries, there is one per row of the view, in the
    order of the rows, each the conversion of its row: no row is
    skipped. *)
Theorem GetChanges_one_entry_per_row
  (rt : GoRuntime) (db : Database) (uuid : string) (options : ChangesOptions)
  W (h : handler BucketE W) (w : W) :
  UUID db = Done uuid ->
  let view := Bucket_View "couchdb" "changes" (GetChanges_opts uuid options) in
  match h _ view w with
  | (Fail e, w1) =>
      run h (GetChanges rt db options) w = (Done (Fail e), w1, [Call view])
  | (Ok rows, w1) =>
      forall changes w' t,
        run h (GetChanges rt db options) w = (Done (Ok changes), w', t) ->
        w' = w1 /\
        Forall2 (fun row entry => GetChanges_entry rt row = Done entry)
          rows changes
  end.
Proof.
  intros HU view. unfold GetChanges. rewrite HU. simpl. fold view.
  destruct (h _ view w) as [[rows | e] w1]; [| reflexivity].
  simpl. intros changes w' t.
  destruct (traverse (GetChanges_entry rt) rows) as [cs | m] eqn:Ht; simpl;
    [| discriminate].
  intros [= <- <- _]. split; [reflexivity | now apply traverse_Forall2].
Qed.

Lemma GetChanges_one_entry_per_row_witness :
  run bucket_handler
    (GetChanges runtime_example db_3f2a
       {| Since := 0; Limit := 0; Descending := false |}) bucket_views_down
  = (Done (Fail (HTTPError StatusInternalServerError "views down")),
     bucket_views_down,
     [Call (Bucket_View "couchdb" "changes"
              (GetChanges_opts "db/3f2a"
                 {| Since := 0; Limit := 0; Descending := false |}))]).
Proof.
  exact (GetChanges_one_entry_per_row runtime_example db_3f2a "db/3f2a"
           {| Since := 0; Limit := 0; Descending := false |}
           Bucket bucket_handler bucket_views_down eq_refl).
Defined.

(** X10: the changes view and the loop of [GetChanges] fit together.
    For a stored record under a document key, with a [sequence] that is
    an integer from 0 to 2^53 (which a double holds exactly) and a
    [current] body whose [_id] and [_rev] are strings, the row that
    [changes_map] emits converts without panic to the entry with that
    sequence, id and revision, marked deleted exactly when
    [current._deleted] is truthy. *)
Theorem stored_document_change_entry
  (rt : GoRuntime) (id p1 p2 docid rev : string) (seq : Z)
  (doc current : Body) :
  jsSplit3 id = ["doc"; p1; p2] ->
  doc !! "sequence" = Some (JNum (inject_Z seq)) ->
  0 <= seq <= 2 ^ 53 ->
  doc !! "current" = Some (JObj current) ->
  current !! "_id" = Some (JStr docid) ->
  current !! "_rev" = Some (JStr rev) ->
  exists k v,
    changes_map (JObj doc) id = Some (k, v) /\
    k = JArr [JStr p1; JNum (inject_Z seq)] /\
    GetChanges_entry rt {| RowID := id; Key := k; Value := v |}
      = Done {| Seq := seq; ID := docid; Changes := [ {["rev" := rev]} ];
                Deleted := jsTruthy (current !! "_deleted") |}.
Proof.
  intros Hid Hseq Hrange Hcur Hdocid Hrev.
  unfold changes_map. cbn [jsProp]. rewrite Hseq, Hid, Hcur. cbn [jsProp].
  rewrite Hdocid, Hrev. simpl.
  eexists _, _. split; [reflexivity |]. split; [reflexivity |].
  unfold GetChanges_entry.
  cbn [Key Value asArr obind index lookup list_lookup asNum asStr].
  unfold goUint64. rewrite Qtrunc_inject_Z.
  replace ((0 <=? seq) && (seq <=? uint64_max)) with true
    by (symmetry; apply andb_true_iff; split; apply Z.leb_le;
        unfold uint64_max; lia).
  destruct (jsTruthy (current !! "_deleted")); reflexivity.
Qed.

Lemma stored_document_change_entry_witness :
  exists k v,
    changes_map (docRecord "a" "1-8d1f" 1) "doc:db/3f2a:a" = Some (k, v) /\
    k = JArr [JStr "db/3f2a"; JNum (inject_Z 1)] /\
    GetChanges_entry runtime_example
      {| RowID := "doc:db/3f2a:a"; Key := k; Value := v |}
      = Done {| Seq := 1; ID := "a"; Changes := [ {["rev" := "1-8d1f"]} ];
                Deleted := false |}.
Proof.
  assert (H1 : (<["sequence" := JNum (inject_Z 1)]>
                {["current" := JObj (<["_id" := JStr "a"]>
                                     {["_rev" := JStr "1-8d1f"]})]} : Body)
               !! "sequence" = Some (JNum (inject_Z 1)))
    by (vm_compute; reflexivity).
  assert (H2 : (<["sequence" := JNum (inject_Z 1)]>
                {["current" := JObj (<["_id" := JStr "a"]>
                                     {["_rev" := JStr "1-8d1f"]})]} : Body)
               !! "current"
               = Some (JObj (<["_id" := JStr "a"]> {["_rev" := JStr "1-8d1f"]})))
    by (vm_compute; reflexivity).
  assert (H3 : (<["_id" := JStr "a"]> {["_rev" := JStr "1-8d1f"]} : Body)
               !! "_id" = Some (JStr "a")) by (vm_compute; reflexivity).
  assert (H4 : (<["_id" := JStr "a"]> {["_rev" := JStr "1-8d1f"]} : Body)
               !! "_rev" = Some (JStr "1-8d1f")) by (vm_compute; reflexivity).
  assert (H5 : 0 <= 1 <= 2 ^ 53) by (split; discriminate).
  destruct (stored_document_change_entry runtime_example "doc:db/3f2a:a"
              "db/3f2a" "a" "a" "1-8d1f" 1 _ _ eq_refl H1 H5 H2 H3 H4)
    as (k & v & Hm & Hk & He).
  exists k, v. split; [exact Hm |]. split; [exact Hk |].
  rewrite He. vm_compute. reflexivity.
Defined.

(** X11: a stored record that has a [sequence] and a [current] object
    but no string [_id] is still emitted by [changes_map], and the row
    makes the loop of [GetChanges] panic. *)
Theorem record_without_id_panics
  (rt : GoRuntime) (id p1 p2 : string) (sequence : JSON) (doc current : Body) :
  jsSplit3 id = ["doc"; p1; p2] ->
  doc !! "sequence" = Some sequence ->
  doc !! "current" = Some (JObj current) ->
  (forall s, current !! "_id" <> Some (JStr s)) ->
  exists k v msg,
    changes_map (JObj doc) id = Some (k, v) /\
    GetChanges_entry rt {| RowID := id; Key := k; Value := v |} = Panicked msg.
Proof.
  intros Hid Hseq Hcur Hno.
  unfold changes_map. cbn [jsProp]. rewrite Hseq, Hid, Hcur. cbn [jsProp].
  assert (Hid' : exists msg, asStr (jsElem (current !! "_id")) = Panicked msg).
  { destruct (current !! "_id") as [[| b0 | q0 | s0 | l0 | m0] |];
      try (eexists; reflexivity).
    exfalso. exact (Hno s0 eq_refl). }
  destruct Hid' as [msg Hmsg].
  destruct sequence as [| b0 | q0 | s0 | l0 | m0];
    destruct (jsTruthy (current !! "_deleted"));
    eexists _, _, _; (split; [reflexivity |]);
    unfold GetChanges_entry;
    cbn [Key Value asArr obind index lookup list_lookup asNum app];
    try reflexivity; rewrite Hmsg; reflexivity.
Qed.

Lemma record_without_id_panics_witness :
  exists k v msg,
    changes_map (JObj (<["sequence" := JNum (inject_Z 1)]>
                       {["current" := JObj ∅]})) "doc:db/3f2a:a" = Some (k, v) /\
    GetChanges_entry runtime_example
      {| RowID := "doc:db/3f2a:a"; Key := k; Value := v |} = Panicked msg.
Proof.
  apply (record_without_id_panics runtime_example "doc:db/3f2a:a" "db/3f2a" "a"
           (JNum (inject_Z 1)) _ ∅ eq_refl).
  - vm_compute. reflexivity.
  - vm_compute. reflexivity.
  - intros s H. discriminate H.
Defined.

Lemma traverse_alldocs_rows (rows : list ViewRow) :
  Forall (fun row => exists doc,
            alldocs_map doc (RowID row) = Some (Key row, Value row)) rows ->
  traverse (fun row => obind (asArr (Key row)) (fun key =>
                       obind (index key 1) asStr)) rows
    = Done (map (fun row => nth 2 (jsSplit3 (RowID row)) "") rows).
Proof.
  induction 1 as [| row rows [doc Hrow] _ IH]; [reflexivity |].
  cbn [traverse map]. rewrite IH.
  unfold alldocs_map in Hrow.
  destruct (jsSplit3 (RowID row)) as [| p0 [| p1 [| p2 [| p3 ps]]]];
    try discriminate Hrow.
  destruct (negb (p0 =? "doc")%string); [discriminate Hrow |].
  injection Hrow as <- _. reflexivity.
Qed.

(** X12: [AllDocIDs] never panics on rows of the all_docs view: for rows
    that [alldocs_map] emitted it returns, in order, the third piece of
    each record key, that is the document id up to its first colon. *)
Theorem AllDocIDs_of_view_rows
  (db : Database) (uuid : string) (rows : list ViewRow)
  W (h : handler BucketE W) (w w1 : W) :
  UUID db = Done uuid ->
  h _ (Bucket_View "couchdb" "all_docs"
         (<["startkey" := JArr [JStr uuid]]>
          (<["endkey" := JArr [JStr uuid; JObj ∅]]>
           {["reduce" := JBool false]}))) w = (Ok rows, w1) ->
  Forall (fun row => exists doc,
            alldocs_map doc (RowID row) = Some (Key row, Value row)) rows ->
  (run h (AllDocIDs db) w).1
    = (Done (Ok (map (fun row => nth 2 (jsSplit3 (RowID row)) "") rows)), w1).
Proof.
  intros HU Hv Hrows.
  pose proof (traverse_alldocs_rows rows Hrows) as Ht.
  now rewrite (AllDocIDs_rows _ _ _ _ _ _ _ _ HU Hv Ht).
Qed.

Lemma AllDocIDs_of_view_rows_witness :
  (run bucket_handler (AllDocIDs db_3f2a) bucket_db_a).1
    = (Done (Ok ["a"]), bucket_db_a).
Proof.
  apply (AllDocIDs_of_view_rows db_3f2a "db/3f2a"
           [ {| RowID := "doc:db/3f2a:a";
                Key := JArr [JStr "db/3f2a"; JStr "a"]; Value := JNull |} ]
           Bucket bucket_handler bucket_db_a bucket_db_a eq_refl).
  - vm_compute. reflexivity.
  - repeat constructor. exists JNull. reflexivity.
Defined.

(** X13: [DocCount] returns -1 when the view query fails, panics when
    the reduced view has no row, and otherwise converts the value of the
    first row. *)
Theorem DocCount_cases
  (rt : GoRuntime) (db : Database) (uuid : string)
  W (h : handler BucketE W) (w : W) :
  UUID db = Done uuid ->
  let view := Bucket_View "couchdb" "all_docs"
                (<["startkey" := JArr [JStr uuid]]>
                 (<["endkey" := JArr [JStr uuid; JObj ∅]]>
                  {["reduce" := JBool true]})) in
  match h _ view w with
  | (Fail _, w1) => run h (DocCount rt db) w = (Done (-1), w1, [Call view])
  | (Ok [], w1) =>
      run h (DocCount rt db) w = (Panicked "index out of range", w1, [Call view])
  | (Ok (row :: _), w1) =>
      forall count, Value row = JNum count ->
        run h (DocCount rt db) w = (Done (goInt rt count), w1, [Call view])
  end.
Proof.
  intros HU view. unfold DocCount, allDocIDsOpts. rewrite HU. simpl. fold view.
  destruct (h _ view w) as [[[| row rows] | e] w1]; try reflexivity.
  intros count Hc. simpl. rewrite Hc. reflexivity.
Qed.

Lemma DocCount_cases_witness :
  run bucket_handler (DocCount runtime_example db_3f2a) bucket_views_down
    = (Done (-1), bucket_views_down,
       [Call (Bucket_View "couchdb" "all_docs"
                (<["startkey" := JArr [JStr "db/3f2a"]]>
                 (<["endkey" := JArr [JStr "db/3f2a"; JObj ∅]]>
                  {["reduce" := JBool true]})))]).
Proof.
  exact (DocCount_cases runtime_example db_3f2a "db/3f2a" Bucket bucket_handler
           bucket_views_down eq_refl).
Defined.

(** * Against the bucket contract *)

Lemma decodeDatabase_encodeDatabase (db : Database) :
  decodeDatabase (encodeDatabase db) = Some db.
Proof.
  destruct db as [n p]. unfold decodeDatabase, encodeDatabase, decodeField.
  cbn [Name DocPrefix]. simplify_map_eq. reflexivity.
Qed.

(** X14: on a bucket that keeps the contract, a database that was just
    created can be opened, with the same name and prefix, and cannot be
    created again: the second attempt fails with status 412 and leaves
    the bucket as it is. *)
Theorem CreateDatabase_then_GetDatabase (name : string) (b : Bucket) :
  MatchString name = true ->
  kv b !! ("cdb:" +:+ name) = None ->
  exists db b',
    (run bucket_handler (CreateDatabase name) b).1 = (Done (Ok db), b') /\
    Name db = name /\
    run bucket_handler (GetDatabase name) b'
      = (Done (Ok db), b', [Call (Bucket_Get ("cdb:" +:+ name))]) /\
    run bucket_handler (CreateDatabase name) b'
      = (Done (Fail (HTTPError 412 "Database already exists")), b',
         [Call (Bucket_Get ("cdb:" +:+ name))]).
Proof.
  intros Hm Habsent. unfold CreateDatabase, GetDatabase.
  rewrite (dbInternalDocName_accepted _ Hm).
  destruct (decide ("cdb:" +:+ name = "")) as [Heq | _]; [discriminate Heq |].
  cbn [bind call run bucket_handler]. rewrite Habsent.
  cbn [bind call run bucket_handler].
  destruct (uuids b) as [| u us]; cbn [bind call run bucket_handler fst snd kv];
    eexists _, _; (split; [reflexivity |]); (split; [reflexivity |]);
    cbn [kv]; rewrite lookup_insert_eq, decodeDatabase_encodeDatabase;
    split; reflexivity.
Qed.

Lemma CreateDatabase_then_GetDatabase_witness :
  exists db b',
    (run bucket_handler (CreateDatabase "db") emptyBucket).1 = (Done (Ok db), b') /\
    Name db = "db" /\
    run bucket_handler (GetDatabase "db") b'
      = (Done (Ok db), b', [Call (Bucket_Get "cdb:db")]).
Proof.
  destruct (CreateDatabase_then_GetDatabase "db" emptyBucket eq_refl eq_refl)
    as (db & b' & H1 & H2 & H3 & _).
  exists db, b'. split; [exact H1 |]. split; [exact H2 | exact H3].
Defined.

(** X15: on a bucket that keeps the contract, the first sequence of a
    database is 1; after [generateSequence] has returned [s],
    [LastSequence] returns [s] and changes nothing, and the next
    [generateSequence] returns [s + 1] (modulo 2^64). *)
Theorem generateSequence_counts_up (db : Database) (b : Bucket) :
  (kv b !! sequenceDocID db = None ->
   (run bucket_handler (generateSequence db) b).1.1 = Done (1, None)) /\
  (forall s b',
     (run bucket_handler (generateSequence db) b).1 = (Done (s, None), b') ->
     run bucket_handler (LastSequence db) b'
       = (Done (s, None), b', [Call (Bucket_Incr (sequenceDocID db) 0 0 0)]) /\
     (run bucket_handler (generateSequence db) b').1.1
       = Done (wrap64 (s + 1), None)).
Proof.
  unfold generateSequence, LastSequence. rewrite !run_call. split.
  - intros Habsent. cbn [bucket_handler fst]. rewrite Habsent. reflexivity.
  - intros s b'. cbn [bucket_handler fst snd].
    destruct (kv b !! sequenceDocID db) as [[| b0 | q | s0 | l | m] |];
      cbn [Z.eqb fst snd]; intros [= <- <-]; rewrite !run_call;
      cbn [bucket_handler fst snd kv]; rewrite lookup_insert_eq;
      cbn [Z.eqb fst snd]; rewrite Qtrunc_inject_Z; split; reflexivity.
Qed.

Lemma generateSequence_counts_up_witness :
  (run bucket_handler (generateSequence db_3f2a) emptyBucket).1.1 = Done (1, None) /\
  (run bucket_handler (generateSequence db_3f2a)
     {| kv := {["cdb:db:nextsequence" := JNum (inject_Z 1)]};
        uuids := uuids emptyBucket; view_error := None |}).1.1
    = Done (wrap64 (1 + 1), None).
Proof.
  split.
  - exact (proj1 (generateSequence_counts_up db_3f2a emptyBucket) eq_refl).
  - assert (H : (run bucket_handler (generateSequence db_3f2a) emptyBucket).1
                = (Done (1, None),
                   {| kv := {["cdb:db:nextsequence" := JNum (inject_Z 1)]};
                      uuids := uuids emptyBucket; view_error := None |}))
      by (vm_compute; reflexivity).
    exact (proj2 (proj2 (generateSequence_counts_up db_3f2a emptyBucket) _ _ H)).
Defined.

(** * Further properties of [rest.go] *)

(** X16: [parseRevisions] panics exactly when [_revisions] is an object
    whose [start] is not a number or whose [ids] is not an array;
    everything else gives nil or a list. *)
Theorem parseRevisions_panics_iff (rt : GoRuntime) (body : Body) :
  (exists msg, parseRevisions rt body = Panicked msg) <->
  exists revisions,
    body !! "_revisions" = Some (JObj revisions) /\
    ((forall start, revisions !! "start" <> Some (JNum start)) \/
     (forall ids, revisions !! "ids" <> Some (JArr ids))).
Proof.
  unfold parseRevisions, mapIndex. split.
  - intros [msg H].
    destruct (body !! "_revisions") as [[| b | q | s | l | revisions] |];
      try discriminate H.
    exists revisions. split; [reflexivity |].
    destruct (revisions !! "start") as [[| b | q | s | l | m] |];
      try (left; intros start; discriminate).
    right. simpl in H.
    destruct (revisions !! "ids") as [[| b | q' | s | l | m] |];
      try (intros ids; discriminate).
    simpl in H. destruct (goInt rt q <? Z.of_nat (length l)); discriminate H.
  - intros (revisions & -> & [Hs | Hi]).
    + destruct (revisions !! "start") as [[| b | q | s | l | m] |];
        try (eexists; reflexivity).
      now destruct (Hs q).
    + destruct (revisions !! "start") as [[| b | q | s | l | m] |];
        try (eexists; reflexivity).
      simpl.
      destruct (revisions !! "ids") as [[| b | q' | s | l | m] |];
        try (eexists; reflexivity).
      now destruct (Hi l).
Qed.

Lemma parseRevisions_panics_iff_witness :
  exists msg, parseRevisions runtime_example body_revisions_empty = Panicked msg.
Proof.
  apply (proj2 (parseRevisions_panics_iff runtime_example body_revisions_empty)).
  exists ∅. split; [vm_compute; reflexivity |].
  left. intros start H. discriminate H.
Defined.

(** X17: [readJSONInto] returns a nil error only when the Content-Type
    was acceptable, the body was read, and the decoder accepted it; the
    target it returns is then the one the decoder produced.  Any error
    it returns is an [HTTPError] with status 406 or 400. *)
Theorem readJSONInto_outcomes
  (rq : Request) (into : Body) W (h : handler HttpE W) (w : W) :
  (forall v, (run h (readJSONInto rq into) w).1.1 = Done (v, None) ->
     (Header_Get rq "Content-Type" = "" \/
      Header_Get rq "Content-Type" = "application/json") /\
     exists data w1 w2,
       h _ ReadAll_Body w = (Ok data, w1) /\
       h _ (Json_Unmarshal data into) w1 = ((v, None), w2)) /\
  (forall v e, (run h (readJSONInto rq into) w).1.1 = Done (v, Some e) ->
     exists status message,
       e = HTTPError status message /\ (status = 406 \/ status = 400)) /\
  (exists v err, (run h (readJSONInto rq into) w).1.1 = Done (v, err)).
Proof.
  unfold readJSONInto.
  destruct (String.eqb_spec (Header_Get rq "Content-Type") "") as [H1 | H1];
    destruct (String.eqb_spec (Header_Get rq "Content-Type") "application/json")
      as [H2 | H2]; cbn [negb andb].
  4: { split; [| split].
       - discriminate.
       - intros v e [= <- <-]. eexists _, _. split; [reflexivity | now left].
       - eexists _, _. reflexivity. }
  all: simpl;
    destruct (h _ ReadAll_Body w) as [[data | e0] w1] eqn:Hr; simpl;
    [ destruct (h _ (Json_Unmarshal data into) w1) as [[v0 [e1 |]] w2] eqn:Hu;
      simpl | ];
    (split; [| split];
     [ first [ discriminate
             | intros v [= <-]; split; [auto |];
               eexists _, _, _; split; [reflexivity | eassumption] ]
     | first [ discriminate
             | intros v e [= <- <-]; eexists _, _;
               split; [reflexivity | now right] ]
     | eexists _, _; reflexivity ]).
Qed.

Lemma readJSONInto_outcomes_witness :
  (Header_Get rq_push "Content-Type" = "" \/
   Header_Get rq_push "Content-Type" = "application/json") /\
  exists data w1 w2,
    http_handler env_push _ ReadAll_Body emptyResponse = (Ok data, w1) /\
    http_handler env_push _ (Json_Unmarshal data ∅) w1 = ((∅, None), w2).
Proof.
  apply (proj1 (readJSONInto_outcomes rq_push ∅ Response
                  (http_handler env_push) emptyResponse) ∅).
  vm_compute. reflexivity.
Defined.

Lemma writeJSON_no_engine (value : JSON) W (h : handler HttpE W) (w : W) :
  Forall (fun c => engineCall c = false) (run h (writeJSON value) w).2.
Proof.
  unfold writeJSON. simpl.
  destruct (h _ (Json_Marshal value) w) as [[json | e] w1]; simpl.
  - destruct (h _ (RW_Header_Set _ _) w1) as [[] w2]. simpl.
    destruct (h _ (RW_Write json) w2) as [[] w3]. repeat constructor.
  - destruct (h _ (RW_WriteHeader _) w1) as [[] w2]. repeat constructor.
Qed.

Lemma writeError_no_engine (err : option error) W (h : handler HttpE W) (w : W) :
  Forall (fun c => engineCall c = false) (run h (writeError err) w).2.
Proof.
  destruct err as [e |]; [| constructor].
  unfold writeError.
  destruct (ErrorAsHTTPStatus (Some e)) as [status message].
  rewrite run_bind, run_call.
  pose proof (writeJSON_no_engine
                (JObj (<["error" := JNum (inject_Z status)]>
                       {["reason" := JStr message]}))
                W h (h _ (RW_WriteHeader status) w).2) as Hj.
  destruct (run h (writeJSON _) _) as [[o w2] t]. simpl in *.
  constructor; [reflexivity | exact Hj].
Qed.

(** X18: an ordinary PUT (no [new_edits=false]).  When the body cannot
    be read, the handler writes that error and calls the engine not at
    all.  When [db.Put] fails it writes that error and stops: no Etag,
    no status 201.  When [db.Put] succeeds it sets the Etag, writes the
    JSON answer, and only then sets status 201, as its last call. *)
Theorem HandlePutDoc_regular
  (rt : GoRuntime) (db : Database) (rq : Request) (docid : string)
  W (h : handler HttpE W) (w w1 : W) (body : Body) (err : option error)
  (t1 : list (callrec HttpE)) :
  run h (readJSON rq) w = (Done (body, err), w1, t1) ->
  match err with
  | Some _ =>
      run h (HandlePutDoc rt db rq docid) w
        = (Done tt, (run h (writeError err) w1).1.2,
           (t1 ++ (run h (writeError err) w1).2)%list) /\
      (Forall (fun c => engineCall c = false) t1 ->
       Forall (fun c => engineCall c = false)
         (run h (HandlePutDoc rt db rq docid) w).2)
  | None =>
      Query_Get rq "new_edits" <> "false" ->
      let ans := h _ (Db_Put db docid body) w1 in
      match ans.1.2 with
      | Some _ =>
          (run h (HandlePutDoc rt db rq docid) w).2
            = (t1 ++ Call (Db_Put db docid body)
                  :: (run h (writeError ans.1.2) ans.2).2)%list
      | None =>
          exists t2,
            (run h (HandlePutDoc rt db rq docid) w).2
              = (t1 ++ Call (Db_Put db docid body)
                    :: Call (RW_Header_Set "Etag" ans.1.1)
                    :: t2 ++ [Call (RW_WriteHeader 201)])%list /\
            t2 = (run h (writeJSON (JObj (<["ok" := JBool true]>
                                          (<["id" := JStr docid]>
                                           {["rev" := JStr ans.1.1]}))))
                    (h _ (RW_Header_Set "Etag" ans.1.1) ans.2).2).2
      end
  end.
Proof.
  intros Hread. unfold HandlePutDoc. rewrite run_bind, Hread.
  destruct err as [e |]; cbn iota beta.
  - pose proof (run_writeError (Some e) W h w1) as [Hdone _].
    pose proof (writeError_no_engine (Some e) W h w1) as Hne.
    destruct (run h (writeError (Some e)) w1) as [[o w2] t2].
    simpl in Hdone, Hne. subst o. cbn [fst snd]. split; [reflexivity |].
    intros Ht1. apply Forall_app. split; assumption.
  - intros Hq. apply String.eqb_neq in Hq. rewrite Hq. cbn [negb].
    rewrite run_bind, run_call.
    destruct (h _ (Db_Put db docid body) w1) as [[newRev err] w2].
    cbn [fst snd]. destruct err as [e |].
    + destruct (run h (writeError (Some e)) w2) as [[o w3] t3]. reflexivity.
    + rewrite run_bind, run_call, run_bind. cbn [fst snd].
      pose proof (run_writeJSON_done
                    (JObj (<["ok" := JBool true]>
                           (<["id" := JStr docid]> {["rev" := JStr newRev]})))
                    W h (h _ (RW_Header_Set "Etag" newRev) w2).2) as Hj.
      destruct (run h (writeJSON _) _) as [[o w3] t3]. simpl in Hj. subst o.
      rewrite run_call. cbn [fst snd app].
      eexists. split; reflexivity.
Qed.

Lemma HandlePutDoc_regular_witness :
  exists t2,
    (run (http_handler env_push)
       (HandlePutDoc runtime_example db_3f2a rq_put "a") emptyResponse).2
    = ([Call ReadAll_Body; Call (Json_Unmarshal "{}" ∅)]
         ++ Call (Db_Put db_3f2a "a" ∅)
         :: Call (RW_Header_Set "Etag" "1-8d1f")
         :: t2 ++ [Call (RW_WriteHeader 201)])%list.
Proof.
  assert (Hread : run (http_handler env_push) (readJSON rq_put) emptyResponse
                  = (Done (∅, None), emptyResponse,
                     [Call ReadAll_Body; Call (Json_Unmarshal "{}" ∅)]))
    by (vm_compute; reflexivity).
  destruct (HandlePutDoc_regular runtime_example db_3f2a rq_put "a" Response
              (http_handler env_push) emptyResponse emptyResponse ∅ None _
              Hread ltac:(discriminate)) as (t2 & H & _).
  exists t2. exact H.
Defined.

(** * The handlers and the router *)

Lemma run_translate {E F : Type -> Type} (f : forall X, E X -> F X) {A}
  (p : Prog E A) W (h : handler F W) (w : W) :
  run h (translate f p) w
    = ((run (sub_handler f h) p w).1.1, (run (sub_handler f h) p w).1.2,
       map (mapCall f) (run (sub_handler f h) p w).2).
Proof.
  revert w. induction p as [a | m | X e k IH]; intros w; try reflexivity.
  simpl. unfold sub_handler at 1 3 5.
  destruct (h X (f X e) w) as [x w1]. rewrite IH.
  destruct (run (sub_handler f h) (k x) w1) as [[o w2] t]. reflexivity.
Qed.

Lemma run_unhandled W (h : handler RestE W) (w : W) :
  run h Handle_unhandled w
    = (Done tt, (h _ (Http (RW_WriteHeader StatusBadRequest)) w).2,
       [Call (Http (RW_WriteHeader StatusBadRequest))]).
Proof.
  unfold Handle_unhandled, http. simpl.
  destruct (h _ (Http (RW_WriteHeader StatusBadRequest)) w) as [[] w1].
  reflexivity.
Qed.

(** X19: what [Handle] refuses.  The only call is [WriteHeader(400)]
    for a path of three or more segments; for a path of two segments
    whose first is not "_local"; for a single segment that starts with
    an underscore and is not one of the four reserved names, whatever
    the method; for a reserved name with another method than its own;
    and for the database itself with a method other than GET, POST or
    DELETE. *)
Theorem Handle_refuses
  (rt : GoRuntime) (ParseUint : string -> Z) (db : Database) (rq : HttpRequest)
  (path : list string) W (h : handler RestE W) (w : W) :
  let refused :=
    run h (Handle rt ParseUint db rq path) w
      = (Done tt, (h _ (Http (RW_WriteHeader StatusBadRequest)) w).2,
         [Call (Http (RW_WriteHeader StatusBadRequest))]) in
  ((3 <= length path)%nat -> refused) /\
  (forall p0 docid, path = [p0; docid] -> p0 <> "_local" -> refused) /\
  (forall s, path = [String "_" s] ->
     String "_" s <> "_all_docs" -> String "_" s <> "_bulk_docs" ->
     String "_" s <> "_changes" -> String "_" s <> "_revs_diff" -> refused) /\
  (path = ["_all_docs"] -> Method rq <> "GET" -> refused) /\
  (path = ["_bulk_docs"] -> Method rq <> "POST" -> refused) /\
  (path = ["_changes"] -> Method rq <> "GET" -> refused) /\
  (path = ["_revs_diff"] -> Method rq <> "POST" -> refused) /\
  (path = [] -> Method rq <> "GET" -> Method rq <> "POST" ->
   Method rq <> "DELETE" -> refused).
Proof.
  intros refused. subst refused. unfold Handle.
  split; [| split; [| split; [| split; [| split; [| split; [| split]]]]]].
  - intros Hlen. destruct path as [| p0 [| p1 [| p2 path]]];
      try (simpl in Hlen; lia). apply run_unhandled.
  - intros p0 docid -> Hp. apply String.eqb_neq in Hp. rewrite Hp.
    apply run_unhandled.
  - intros s -> H1 H2 H3 H4.
    apply String.eqb_neq in H1, H2, H3, H4. rewrite H1, H2, H3, H4.
    cbn [Ascii.eqb Bool.eqb negb]. apply run_unhandled.
  - intros -> Hm. apply String.eqb_neq in Hm. cbn [String.eqb Ascii.eqb Bool.eqb].
    rewrite Hm. apply run_unhandled.
  - intros -> Hm. apply String.eqb_neq in Hm. cbn [String.eqb Ascii.eqb Bool.eqb].
    rewrite Hm. apply run_unhandled.
  - intros -> Hm. apply String.eqb_neq in Hm. cbn [String.eqb Ascii.eqb Bool.eqb].
    rewrite Hm. apply run_unhandled.
  - intros -> Hm. apply String.eqb_neq in Hm. cbn [String.eqb Ascii.eqb Bool.eqb].
    rewrite Hm. apply run_unhandled.
  - intros -> H1 H2 H3. apply String.eqb_neq in H1, H2, H3.
    rewrite H1, H2, H3. apply run_unhandled.
Qed.

Lemma Handle_refuses_witness :
  run (rest_handler renv_empty)
    (Handle runtime_example (fun _ => 0) db_3f2a (request "GET" "/db/_design/x")
       ["_design"; "x"]) (emptyResponse, bucket_db_a)
  = (Done tt,
     ({| resp_status := Some 400; resp_headers := ∅; resp_body := "" |},
      bucket_db_a),
     [Call (Http (RW_WriteHeader StatusBadRequest))]).
Proof.
  apply (proj1 (proj2 (Handle_refuses runtime_example (fun _ => 0) db_3f2a
                         (request "GET" "/db/_design/x") ["_design"; "x"]
                         (Response * Bucket) (rest_handler renv_empty)
                         (emptyResponse, bucket_db_a)))
           "_design" "x" eq_refl).
  discriminate.
Defined.

(** X20: DELETE of a database.  Whatever [Delete] returns, the handler
    writes the error if there is one and then, in every case, writes
    the body "ok" as its last call. *)
Theorem Handle_delete_database
  (rt : GoRuntime) (ParseUint : string -> Z) (db : Database) (rq : HttpRequest)
  W (h : handler RestE W) (w w1 : W) (err : option error)
  (t1 : list (callrec BucketE)) :
  Method rq = "DELETE" ->
  run (sub_handler (@Bucket_call) h) (Delete db) w = (Done err, w1, t1) ->
  let we := run (sub_handler (@Http) h) (writeError err) w1 in
  run h (Handle rt ParseUint db rq []) w
    = (Done tt, (h _ (Http (RW_Write "ok")) we.1.2).2,
       (map (mapCall (@Bucket_call)) t1 ++ map (mapCall (@Http)) we.2
          ++ [Call (Http (RW_Write "ok"))])%list).
Proof.
  intros Hm Hdel we. unfold Handle. rewrite Hm.
  cbn [String.eqb Ascii.eqb Bool.eqb].
  unfold bucket, http. rewrite run_bind, run_translate, Hdel. cbn [fst snd].
  rewrite run_bind, run_translate. fold we.
  pose proof (run_writeError err W (sub_handler (@Http) h) w1) as [Hdone _].
  fold we in Hdone. rewrite Hdone. cbn [translate call run].
  destruct (h _ (Http (RW_Write "ok")) we.1.2) as [[] w3].
  reflexivity.
Qed.

Lemma Handle_delete_database_witness :
  (run (rest_handler renv_empty)
     (Handle runtime_example (fun _ => 0) db_3f2a (request "DELETE" "/db") [])
     (emptyResponse, emptyBucket)).1
  = (Done tt,
     ({| resp_status := Some 404;
         resp_headers := {["Content-Type" := "application/json"]};
         resp_body := "{}ok" |}, emptyBucket)).
Proof.
  assert (Hdel : run (sub_handler (@Bucket_call) (rest_handler renv_empty))
                   (Delete db_3f2a) (emptyResponse, emptyBucket)
                 = (Done (Some (MCResponse KEY_ENOENT)),
                    (emptyResponse, emptyBucket),
                    [Call (Bucket_View "couchdb" "all_docs"
                             (<["startkey" := JArr [JStr "db/3f2a"]]>
                              (<["endkey" := JArr [JStr "db/3f2a"; JObj ∅]]>
                               {["reduce" := JBool false]})));
                     Call (Bucket_Delete "cdb:db")]))
    by (vm_compute; reflexivity).
  rewrite (Handle_delete_database runtime_example (fun _ => 0) db_3f2a
             (request "DELETE" "/db") (Response * Bucket)
             (rest_handler renv_empty) _ _ _ _ eq_refl Hdel).
  vm_compute. reflexivity.
Defined.

(** ** The router *)

Lemma splitOn_snoc (sep : ascii) (s : string) :
  splitOn sep (s +:+ String sep "") = (splitOn sep s ++ [""])%list.
Proof.
  induction s as [| c s IH].
  - change ("" +:+ String sep "") with (String sep "").
    simpl. now rewrite Ascii.eqb_refl.
  - rewrite append_cons. simpl. rewrite IH.
    destruct (Ascii.eqb c sep); [reflexivity |].
    pose proof (splitOn_not_nil sep s) as Hs.
    destruct (splitOn sep s) as [| p ps]; [contradiction | reflexivity].
Qed.

Lemma dropTrailingEmpty_snoc (path : list string) :
  dropTrailingEmpty (path ++ [""]) = dropTrailingEmpty path.
Proof.
  induction path as [| p path IH]; [reflexivity |].
  simpl. now rewrite IH.
Qed.

(** X21: a trailing slash does not change what the REST handler does:
    for every request with a non-empty path, the request with "/"
    appended to the path runs alike against every world. *)
Theorem NewRESTHandler_trailing_slash
  (rt : GoRuntime) (ParseUint : string -> Z) (rq : HttpRequest)
  W (h : handler RestE W) (w : W) :
  URL_Path rq <> "" ->
  run h (NewRESTHandler rt ParseUint
           {| Method := Method rq; URL_Path := URL_Path rq +:+ "/";
              Rq := Rq rq |}) w
    = run h (NewRESTHandler rt ParseUint rq) w.
Proof.
  intros Hp. unfold NewRESTHandler. cbn [URL_Path Method].
  destruct (URL_Path rq) as [| c rest]; [contradiction |].
  rewrite append_cons, splitOn_snoc, dropTrailingEmpty_snoc.
  destruct (dropTrailingEmpty (splitOn "/" rest)) as [| dbName path'];
    unfold handleRoot, Handle; cbn [Method Rq]; reflexivity.
Qed.

Lemma NewRESTHandler_trailing_slash_witness :
  run (rest_handler renv_empty)
    (NewRESTHandler runtime_example (fun _ => 0) (request "PUT" "/db/"))
    (emptyResponse, emptyBucket)
  = run (rest_handler renv_empty)
      (NewRESTHandler runtime_example (fun _ => 0) (request "PUT" "/db"))
      (emptyResponse, emptyBucket).
Proof.
  apply (NewRESTHandler_trailing_slash runtime_example (fun _ => 0)
           (request "PUT" "/db") (Response * Bucket) (rest_handler renv_empty)
           (emptyResponse, emptyBucket)).
  discriminate.
Defined.

Lemma writeJSON_response_only (value : JSON) W (h : handler RestE W) (w : W) :
  Forall (fun c => responseCall c = true) (run h (http (writeJSON value)) w).2.
Proof.
  unfold http, writeJSON. cbn [call bind translate run].
  destruct (h _ (Http (Json_Marshal value)) w) as [[json | e] w1];
    cbn [call bind translate run].
  - destruct (h _ (Http (RW_Header_Set _ _)) w1) as [[] w2].
    destruct (h _ (Http (RW_Write json)) w2) as [[] w3].
    repeat constructor.
  - destruct (h _ (Http (RW_WriteHeader _)) w1) as [[] w2].
    repeat constructor.
Qed.

Lemma run_http_writeError_calls (err : option error) W (h : handler RestE W) (w : W) :
  (run h (http (writeError err)) w).1.1 = Done tt /\
  Forall (fun c => responseCall c = true) (run h (http (writeError err)) w).2 /\
  match err with
  | None => (run h (http (writeError err)) w).2 = []
  | Some _ =>
      exists t, (run h (http (writeError err)) w).2
                  = Call (Http (RW_WriteHeader (ErrorAsHTTPStatus err).1)) :: t
  end.
Proof.
  split; [| split].
  - unfold http. rewrite run_translate. cbn [fst snd].
    apply (run_writeError err W (sub_handler (@Http) h) w).
  - destruct err as [e |]; [| constructor].
    unfold http, writeError.
    destruct (ErrorAsHTTPStatus (Some e)) as [status message].
    cbn [call bind translate run].
    destruct (h _ (Http (RW_WriteHeader status)) w) as [[] w1].
    pose proof (writeJSON_response_only
                  (JObj (<["error" := JNum (inject_Z status)]>
                         {["reason" := JStr message]})) W h w1) as Hj.
    unfold http in Hj.
    destruct (run h (translate (@Http) (writeJSON _)) w1) as [[o w2] t].
    simpl in Hj. constructor; [reflexivity | exact Hj].
  - unfold http. rewrite run_translate. cbn [fst snd].
    destruct (run_writeError err W (sub_handler (@Http) h) w) as [_ Ht].
    destruct err as [e |]; [| now rewrite Ht].
    destruct Ht as [t ->]. eexists. reflexivity.
Qed.

(** X22: a request for a database whose name has no character of the
    class, whatever its method and the rest of its path, runs exactly
    as [writeError] of the error 400 "Illegal database name" runs: the
    first call sets status 400, every call only produces the response,
    and the bucket and the document engine are not called. *)
Theorem NewRESTHandler_illegal_name
  (rt : GoRuntime) (ParseUint : string -> Z) (rq : HttpRequest)
  (c : ascii) (rest dbName : string) (path' : list string)
  W (h : handler RestE W) (w : W) :
  URL_Path rq = String c rest ->
  dropTrailingEmpty (splitOn "/" rest) = dbName :: path' ->
  existsb kDBNameClass (list_ascii_of_string dbName) = false ->
  run h (NewRESTHandler rt ParseUint rq) w
    = run h (http (writeError (Some (HTTPError 400 "Illegal database name")))) w /\
  (run h (NewRESTHandler rt ParseUint rq) w).1.1 = Done tt /\
  Forall (fun c => responseCall c = true)
    (run h (NewRESTHandler rt ParseUint rq) w).2 /\
  exists t, (run h (NewRESTHandler rt ParseUint rq) w).2
              = Call (Http (RW_WriteHeader 400)) :: t.
Proof.
  intros Hpath Hsplit Hname. rewrite <- MatchString_existsb in Hname.
  assert (Hrun : run h (NewRESTHandler rt ParseUint rq) w
                 = run h (http (writeError
                                  (Some (HTTPError 400 "Illegal database name")))) w).
  { unfold NewRESTHandler. rewrite Hpath, Hsplit.
    unfold bucket, GetDatabase, CreateDatabase.
    rewrite (dbInternalDocName_rejected _ Hname).
    destruct (decide ("" = "")) as [_ | Hne]; [| contradiction].
    cbn [translate bind].
    destruct ((Method rq =? "PUT")%string && (length (dbName :: path') =? 1)%nat);
      reflexivity. }
  split; [exact Hrun |]. rewrite Hrun.
  exact (run_http_writeError_calls
           (Some (HTTPError 400 "Illegal database name")) W h w).
Qed.

Lemma NewRESTHandler_illegal_name_witness :
  exists t,
    (run (rest_handler renv_empty)
       (NewRESTHandler runtime_example (fun _ => 0) (request "PUT" "/ABC"))
       (emptyResponse, emptyBucket)).2
    = Call (Http (RW_WriteHeader 400)) :: t.
Proof.
  exact (proj2 (proj2 (proj2
           (NewRESTHandler_illegal_name runtime_example (fun _ => 0)
              (request "PUT" "/ABC") "/" "ABC" "ABC" []
              (Response * Bucket) (rest_handler renv_empty)
              (emptyResponse, emptyBucket) eq_refl eq_refl eq_refl)))).
Defined.

(** ** Bulk documents *)

Lemma run_bulk_item_new_edits (rt : GoRuntime) (db : Database) (doc : Body)
  W (h : handler RestE W) (w : W) :
  exists status,
    (run h (HandleBulkDocs_item rt db true (JObj doc)) w).1.1 = Done status /\
    (run h (HandleBulkDocs_item rt db true (JObj doc)) w).2 = [bulk_call db doc].
Proof.
  unfold HandleBulkDocs_item, bulk_call. cbn [lift bind].
  destruct (mapIndex doc "_id") as [| b | q | [| c s] | l | m];
    cbn [String.eqb negb bind call http translate run];
    try (destruct (h _ (Db_Post db doc) w) as [[[docid revid] err] w1];
         eexists; split; reflexivity).
  destruct (h _ (Http (Db_Put db (String c s) doc)) w) as [[revid err] w1].
  eexists; split; reflexivity.
Qed.

Lemma run_bulk_loop_new_edits (rt : GoRuntime) (db : Database) (docs : list Body)
  W (h : handler RestE W) (result : list Body) (w : W) :
  exists result',
    (run h (HandleBulkDocs_loop rt db true (JObj <$> docs) result) w).1.1
      = Done result' /\
    length result' = (length result + length docs)%nat /\
    (run h (HandleBulkDocs_loop rt db true (JObj <$> docs) result) w).2
      = map (bulk_call db) docs.
Proof.
  revert result w. induction docs as [| doc docs IH]; intros result w.
  - exists result. simpl. repeat split. lia.
  - cbn [fmap list_fmap HandleBulkDocs_loop]. rewrite run_bind.
    destruct (run_bulk_item_new_edits rt db doc W h w) as (status & Ho & Ht).
    destruct (run h (HandleBulkDocs_item rt db true (JObj doc)) w)
      as [[o w1] t]. simpl in Ho, Ht. subst o t.
    destruct (IH (result ++ [status])%list w1) as (result' & Ho & Hl & Ht).
    destruct (run h (HandleBulkDocs_loop rt db true (JObj <$> docs) _) w1)
      as [[o w2] t]. simpl in Ho, Ht. subst o t.
    exists result'. simpl. repeat split.
    rewrite Hl, length_app. simpl. lia.
Qed.

Lemma run_http_writeJSON (value : JSON) W (h : handler RestE W) (w : W) :
  exists t,
    (run h (http (writeJSON value)) w).1.1 = Done tt /\
    (run h (http (writeJSON value)) w).2 = Call (Http (Json_Marshal value)) :: t.
Proof.
  unfold http, writeJSON. cbn [call bind translate run].
  destruct (h _ (Http (Json_Marshal value)) w) as [[json | e] w1];
    cbn [call bind translate run].
  - destruct (h _ (Http (RW_Header_Set _ _)) w1) as [[] w2].
    destruct (h _ (Http (RW_Write json)) w2) as [[] w3].
    eexists. split; reflexivity.
  - destruct (h _ (Http (RW_WriteHeader _)) w1) as [[] w2].
    eexists. split; reflexivity.
Qed.

(** X23: a bulk request with [new_edits] true or absent, whose [docs]
    are objects.  Each document leads to exactly one engine call, in
    order: [Put] when it has a non-empty string [_id], [Post] otherwise;
    a failed item does not stop the others.  Then status 201 is set,
    whatever the items returned, and the answer that is marshalled has
    one status per document. *)
Theorem HandleBulkDocs_new_edits
  (rt : GoRuntime) (db : Database) (rq : Request) (body : Body)
  (docs : list Body) W (h : handler RestE W) (w w1 : W)
  (t1 : list (callrec HttpE)) :
  run (sub_handler (@Http) h) (readJSON rq) w = (Done (body, None), w1, t1) ->
  body !! "new_edits" <> Some (JBool false) ->
  body !! "docs" = Some (JArr (JObj <$> docs)) ->
  exists result t3,
    length result = length docs /\
    (run h (HandleBulkDocs rt db rq) w).1.1 = Done tt /\
    (run h (HandleBulkDocs rt db rq) w).2
      = (map (mapCall (@Http)) t1 ++ map (bulk_call db) docs
           ++ Call (Http (RW_WriteHeader 201))
           :: Call (Http (Json_Marshal (JObj {["docs" := JArr (JObj <$> result)]})))
           :: t3)%list.
Proof.
  intros Hread Hne Hdocs.
  assert (Hnew : match mapIndex body "new_edits" with
                 | JBool b => b
                 | _ => true
                 end = true).
  { unfold mapIndex.
    destruct (body !! "new_edits") as [[| [|] | q | s | l | m] |];
      try reflexivity. now destruct Hne. }
  assert (Hrun : exists result t3 w4,
             length result = length docs /\
             run h (HandleBulkDocs rt db rq) w
               = (Done tt, w4,
                  (map (mapCall (@Http)) t1 ++ map (bulk_call db) docs
                     ++ Call (Http (RW_WriteHeader 201))
                     :: Call (Http (Json_Marshal
                                      (JObj {["docs" := JArr (JObj <$> result)]})))
                     :: t3)%list)).
  { unfold HandleBulkDocs.
    rewrite run_bind. unfold http at 1. rewrite run_translate, Hread.
    cbn [fst snd]. rewrite Hnew. unfold mapIndex at 1. rewrite Hdocs.
    cbn [asArr lift bind].
    rewrite run_bind.
    destruct (run_bulk_loop_new_edits rt db docs W h [] w1)
      as (result & Ho & Hl & Ht).
    destruct (run h (HandleBulkDocs_loop rt db true (JObj <$> docs) []) w1)
      as [[o w2] t]. simpl in Ho, Ht, Hl. subst o t.
    rewrite run_bind. unfold http at 1. cbn [call translate run].
    destruct (h _ (Http (RW_WriteHeader StatusCreated)) w2) as [[] w3].
    destruct (run_http_writeJSON (JObj {["docs" := JArr (JObj <$> result)]})
                W h w3) as (t3 & Ho & Ht).
    destruct (run h (http (writeJSON _)) w3) as [[o w4] t]. simpl in Ho, Ht.
    subst o t.
    exists result, t3, w4. split; [exact Hl | reflexivity]. }
  destruct Hrun as (result & t3 & w4 & Hl & Hrun).
  exists result, t3. rewrite Hrun. repeat split. exact Hl.
Qed.

Lemma HandleBulkDocs_new_edits_witness :
  exists result t3,
    length result = 2%nat /\
    (run (rest_handler renv_bulk) (HandleBulkDocs runtime_example db_3f2a rq_put)
       (emptyResponse, emptyBucket)).2
    = ([Call (Http ReadAll_Body); Call (Http (Json_Unmarshal "{}" ∅))]
         ++ [Call (Http (Db_Put db_3f2a "a" {["_id" := JStr "a"]}));
             Call (Db_Post db_3f2a {["v" := JNum (inject_Z 1)]})]
         ++ Call (Http (RW_WriteHeader 201))
         :: Call (Http (Json_Marshal (JObj {["docs" := JArr (JObj <$> result)]})))
         :: t3)%list.
Proof.
  assert (Hread : run (sub_handler (@Http) (rest_handler renv_bulk))
                    (readJSON rq_put) (emptyResponse, emptyBucket)
                  = (Done ({["docs" := JArr (JObj <$> bulk_docs_2)]}, None),
                     (emptyResponse, emptyBucket),
                     [Call ReadAll_Body; Call (Json_Unmarshal "{}" ∅)]))
    by (vm_compute; reflexivity).
  assert (Hne : ({["docs" := JArr (JObj <$> bulk_docs_2)]} : Body) !! "new_edits"
                <> Some (JBool false)) by (vm_compute; discriminate).
  assert (Hdocs : ({["docs" := JArr (JObj <$> bulk_docs_2)]} : Body) !! "docs"
                  = Some (JArr (JObj <$> bulk_docs_2)))
    by (vm_compute; reflexivity).
  destruct (HandleBulkDocs_new_edits runtime_example db_3f2a rq_put _ bulk_docs_2
              (Response * Bucket) (rest_handler renv_bulk) _ _ _
              Hread Hne Hdocs) as (result & t3 & Hl & _ & Ht).
  exists result, t3. split; [exact Hl |].
  rewrite Ht. vm_compute. reflexivity.
Defined.

(** X24: with [new_edits] false, a document whose [_revisions] has an
    empty [ids] list and a [start] that is not negative makes the loop
    of [HandleBulkDocs] panic, at [revisions[0]], before the engine is
    called: [parseRevisions] returns a list that is empty but not
    nil. *)
Theorem HandleBulkDocs_empty_ids_panics
  (rt : GoRuntime) (db : Database) (doc revisions : Body) (n : Z)
  W (h : handler RestE W) (w : W) :
  doc !! "_revisions" = Some (JObj revisions) ->
  revisions !! "start" = Some (JNum (inject_Z n)) ->
  revisions !! "ids" = Some (JArr []) ->
  0 <= n < 2 ^ 63 ->
  parseRevisions rt doc = Done (Some []) /\
  run h (HandleBulkDocs_item rt db false (JObj doc)) w
    = (Panicked "index out of range", w, []).
Proof.
  intros Hr Hs Hi Hn.
  assert (Hp : parseRevisions rt doc = Done (Some [])).
  { unfold parseRevisions, mapIndex. rewrite Hr, Hs, Hi. simpl.
    rewrite goInt_inject_Z by lia.
    change (Z.of_nat 0) with 0.
    destruct (Z.ltb_spec n 0); [lia | reflexivity]. }
  split; [exact Hp |].
  unfold HandleBulkDocs_item. cbn [lift bind]. rewrite Hp. reflexivity.
Qed.

Lemma HandleBulkDocs_empty_ids_panics_witness :
  run (rest_handler renv_empty)
    (HandleBulkDocs_item runtime_example db_3f2a false (JObj doc_no_ids))
    (emptyResponse, emptyBucket)
  = (Panicked "index out of range", (emptyResponse, emptyBucket), []).
Proof.
  assert (Hr : doc_no_ids !! "_revisions"
               = Some (JObj (<["start" := JNum (inject_Z 0)]>
                             {["ids" := JArr []]})))
    by (vm_compute; reflexivity).
  assert (Hs : (<["start" := JNum (inject_Z 0)]> {["ids" := JArr []]} : Body)
               !! "start" = Some (JNum (inject_Z 0)))
    by (vm_compute; reflexivity).
  assert (Hi : (<["start" := JNum (inject_Z 0)]> {["ids" := JArr []]} : Body)
               !! "ids" = Some (JArr [])) by (vm_compute; reflexivity).
  assert (Hn : 0 <= 0 < 2 ^ 63) by (split; [discriminate | reflexivity]).
  pose proof (HandleBulkDocs_empty_ids_panics runtime_example db_3f2a
                doc_no_ids _ 0 (Response * Bucket) (rest_handler renv_empty)
                (emptyResponse, emptyBucket) Hr Hs Hi Hn) as [_ H].
  exact H.
Defined.

(** ** Changes, documents, local documents *)

(** X25: the changes handler.  Its query to the changes view always has
    [descending] false, [since] and [limit] coming from the query
    string.  When the view fails, the error is written and the sequence
    counter is not read; when the view answers with rows that convert,
    the counter is read next, with [Incr] by zero. *)
Theorem HandleChanges_calls
  (rt : GoRuntime) (ParseUint : string -> Z) (db : Database) (uuid : string)
  (rq : Request) W (h : handler RestE W) (w : W) :
  UUID db = Done uuid ->
  let options := {| Since := getIntQuery ParseUint rq "since";
                    Limit := int_of_uint64 (getIntQuery ParseUint rq "limit");
                    Descending := false |} in
  let view := Bucket_View "couchdb" "changes" (GetChanges_opts uuid options) in
  GetChanges_opts uuid options !! "descending" = Some (JBool false) /\
  match h _ (Bucket_call view) w with
  | (Fail e, w1) =>
      run h (HandleChanges rt ParseUint db rq) w
        = (Done tt, (run h (http (writeError (Some e))) w1).1.2,
           Call (Bucket_call view) :: (run h (http (writeError (Some e))) w1).2)
  | (Ok rows, w1) =>
      forall changes, traverse (GetChanges_entry rt) rows = Done changes ->
      exists t,
        (run h (HandleChanges rt ParseUint db rq) w).2
          = Call (Bucket_call view)
            :: Call (Bucket_call (Bucket_Incr (sequenceDocID db) 0 0 0)) :: t
  end.
Proof.
  intros HU options view. split.
  - unfold GetChanges_opts. destruct (0 <? Limit options);
      simplify_map_eq; reflexivity.
  - unfold HandleChanges. fold options. unfold bucket, GetChanges.
    rewrite HU. cbn [lift bind call translate]. fold view.
    cbn [run]. destruct (h _ (Bucket_call view) w) as [[rows | e] w1].
    + intros changes Ht. rewrite Ht. cbn [lift bind translate run].
      unfold LastSequence. cbn [call translate bind run].
      destruct (h _ (Bucket_call (Bucket_Incr (sequenceDocID db) 0 0 0)) w1)
        as [[lastSeq err] w2].
      destruct err as [e |];
        match goal with
        | |- context [run h ?p w2] => destruct (run h p w2) as [[o w3] t]
        end; eexists; reflexivity.
    + cbn [translate bind run].
      destruct (run h (http (writeError (Some e))) w1) as [[o w2] t] eqn:Hw.
      pose proof (run_http_writeError_calls (Some e) W h w1) as [Hd _].
      rewrite Hw in Hd. simpl in Hd. subst o. reflexivity.
Qed.

Lemma HandleChanges_calls_witness :
  exists t,
    (run (rest_handler renv_empty)
       (HandleChanges runtime_example (fun _ => 0) db_3f2a rq_put)
       (emptyResponse, bucket_db_a)).2
    = Call (Bucket_call (Bucket_View "couchdb" "changes"
                           (GetChanges_opts "db/3f2a"
                              {| Since := 0; Limit := 0; Descending := false |})))
      :: Call (Bucket_call (Bucket_Incr "cdb:db:nextsequence" 0 0 0)) :: t.
Proof.
  pose proof (HandleChanges_calls runtime_example (fun _ => 0) db_3f2a "db/3f2a"
                rq_put (Response * Bucket) (rest_handler renv_empty)
                (emptyResponse, bucket_db_a) eq_refl) as [_ H].
  assert (Hv : rest_handler renv_empty _
                 (Bucket_call (Bucket_View "couchdb" "changes"
                    (GetChanges_opts "db/3f2a"
                       {| Since := getIntQuery (fun _ => 0) rq_put "since";
                          Limit := int_of_uint64
                                     (getIntQuery (fun _ => 0) rq_put "limit");
                          Descending := false |})))
                 (emptyResponse, bucket_db_a)
               = (Ok [ {| RowID := "doc:db/3f2a:a";
                          Key := JArr [JStr "db/3f2a"; JNum (inject_Z 1)];
                          Value := JArr [JStr "a"; JStr "1-8d1f"] |} ],
                  (emptyResponse, bucket_db_a)))
    by (vm_compute; reflexivity).
  rewrite Hv in H.
  destruct (H [ {| Seq := 1; ID := "a"; Changes := [ {["rev" := "1-8d1f"]} ];
                   Deleted := false |} ]) as [t Ht];
    [vm_compute; reflexivity |].
  exists t. exact Ht.
Defined.

Lemma writeJSON_never_sets_created (value : JSON) W (h : handler RestE W) (w : W) :
  Forall (fun c => setsCreated c = false) (run h (http (writeJSON value)) w).2.
Proof.
  unfold http, writeJSON. cbn [call bind translate run].
  destruct (h _ (Http (Json_Marshal value)) w) as [[json | e] w1];
    cbn [call bind translate run].
  - destruct (h _ (Http (RW_Header_Set _ _)) w1) as [[] w2].
    destruct (h _ (Http (RW_Write json)) w2) as [[] w3].
    repeat constructor.
  - destruct (h _ (Http (RW_WriteHeader _)) w1) as [[] w2].
    repeat constructor.
Qed.

(** X26: a successful POST of a document sets the Location and Etag
    headers and writes the JSON answer, and nowhere sets status 201:
    after the body is read and [db.Post] has succeeded, no call is
    [WriteHeader(201)]. *)
Theorem HandlePostDoc_success_calls
  (db : Database) (rq : Request) (body : Body) (docid newRev : string)
  W (h : handler RestE W) (w w1 w2 : W) (t1 : list (callrec HttpE)) :
  run (sub_handler (@Http) h) (readJSON rq) w = (Done (body, None), w1, t1) ->
  h _ (Db_Post db body) w1 = ((docid, newRev, None), w2) ->
  exists t,
    (run h (HandlePostDoc db rq) w).1.1 = Done tt /\
    (run h (HandlePostDoc db rq) w).2
      = (map (mapCall (@Http)) t1
           ++ Call (Db_Post db body)
           :: Call (Http (RW_Header_Set "Location" docid))
           :: Call (Http (RW_Header_Set "Etag" newRev))
           :: Call (Http (Json_Marshal (JObj (<["ok" := JBool true]>
                                              (<["id" := JStr docid]>
                                               {["rev" := JStr newRev]})))))
           :: t)%list /\
    Forall (fun c => setsCreated c = false) t.
Proof.
  intros Hread Hpost.
  assert (Hrun : exists t w5,
             run h (HandlePostDoc db rq) w
               = (Done tt, w5,
                  (map (mapCall (@Http)) t1
                     ++ Call (Db_Post db body)
                     :: Call (Http (RW_Header_Set "Location" docid))
                     :: Call (Http (RW_Header_Set "Etag" newRev))
                     :: Call (Http (Json_Marshal
                                      (JObj (<["ok" := JBool true]>
                                             (<["id" := JStr docid]>
                                              {["rev" := JStr newRev]})))))
                     :: t)%list) /\
             Forall (fun c => setsCreated c = false) t).
  { unfold HandlePostDoc. rewrite run_bind. unfold http at 1.
    rewrite run_translate, Hread. cbn [fst snd].
    rewrite run_bind, run_call, Hpost. cbn [fst snd].
    rewrite run_bind. unfold http at 1. cbn [call translate run].
    destruct (h _ (Http (RW_Header_Set "Location" docid)) w2) as [[] w3].
    rewrite run_bind. unfold http at 1. cbn [call translate run].
    destruct (h _ (Http (RW_Header_Set "Etag" newRev)) w3) as [[] w4].
    pose proof (run_http_writeJSON
                  (JObj (<["ok" := JBool true]>
                         (<["id" := JStr docid]> {["rev" := JStr newRev]})))
                  W h w4) as (t & Ho & Ht).
    pose proof (writeJSON_never_sets_created
                  (JObj (<["ok" := JBool true]>
                         (<["id" := JStr docid]> {["rev" := JStr newRev]})))
                  W h w4) as Hc.
    destruct (run h (http (writeJSON _)) w4) as [[o w5] t'].
    simpl in Ho, Ht, Hc. subst o t'.
    exists t, w5. split; [reflexivity |]. now inversion Hc. }
  destruct Hrun as (t & w5 & Hrun & Hc).
  exists t. rewrite Hrun. repeat split. exact Hc.
Qed.

Lemma HandlePostDoc_success_calls_witness :
  exists t,
    (run (rest_handler renv_empty) (HandlePostDoc db_3f2a rq_put)
       (emptyResponse, emptyBucket)).1.1 = Done tt /\
    Forall (fun c => setsCreated c = false) t.
Proof.
  assert (Hread : run (sub_handler (@Http) (rest_handler renv_empty))
                    (readJSON rq_put) (emptyResponse, emptyBucket)
                  = (Done (∅, None), (emptyResponse, emptyBucket),
                     [Call ReadAll_Body; Call (Json_Unmarshal "{}" ∅)]))
    by (vm_compute; reflexivity).
  destruct (HandlePostDoc_success_calls db_3f2a rq_put ∅ "5e0c" "1-8d1f"
              (Response * Bucket) (rest_handler renv_empty) _ _ _ _
              Hread eq_refl) as (t & Hd & _ & Hc).
  exists t. split; [exact Hd | exact Hc].
Defined.

(** X27: GET of a document.  An error of [db.Get] is written and
    nothing else; a nil body without error gives exactly
    [WriteHeader(404)]; a body whose [_rev] is not a string makes the
    handler panic before it writes anything; otherwise the Etag is the
    [_rev] and the body is written as JSON. *)
Theorem HandleGetDoc_cases
  (db : Database) (docid : string) W (h : handler RestE W) (w : W) :
  match h _ (Db_Get db docid) w with
  | (_, Some e, w1) =>
      run h (HandleGetDoc db docid) w
        = (Done tt, (run h (http (writeError (Some e))) w1).1.2,
           Call (Db_Get db docid) :: (run h (http (writeError (Some e))) w1).2)
  | (None, None, w1) =>
      run h (HandleGetDoc db docid) w
        = (Done tt, (h _ (Http (RW_WriteHeader 404)) w1).2,
           [Call (Db_Get db docid); Call (Http (RW_WriteHeader 404))])
  | (Some value, None, w1) =>
      match value !! "_rev" with
      | Some (JStr rev) =>
          exists t,
            (run h (HandleGetDoc db docid) w).2
              = Call (Db_Get db docid)
                :: Call (Http (RW_Header_Set "Etag" rev))
                :: Call (Http (Json_Marshal (JObj value))) :: t
      | _ =>
          exists msg,
            run h (HandleGetDoc db docid) w
              = (Panicked msg, w1, [Call (Db_Get db docid)])
      end
  end.
Proof.
  unfold HandleGetDoc. rewrite run_bind, run_call.
  destruct (h _ (Db_Get db docid) w) as [[[value |] [e |]] w1]; cbn [fst snd].
  - pose proof (run_http_writeError_calls (Some e) W h w1) as [Hd _].
    destruct (run h (http (writeError (Some e))) w1) as [[o w2] t].
    simpl in Hd. subst o. reflexivity.
  - unfold mapIndex.
    destruct (value !! "_rev") as [[| b | q | rev | l | m] |];
      try (eexists; reflexivity).
    cbn [asStr lift bind]. unfold http at 1. cbn [call translate bind run].
    destruct (h _ (Http (RW_Header_Set "Etag" rev)) w1) as [[] w2].
    destruct (run_http_writeJSON (JObj value) W h w2) as (t & Ho & Ht).
    destruct (run h (http (writeJSON (JObj value))) w2) as [[o w3] t'].
    simpl in Ho, Ht. subst o t'. eexists. reflexivity.
  - pose proof (run_http_writeError_calls (Some e) W h w1) as [Hd _].
    destruct (run h (http (writeError (Some e))) w1) as [[o w2] t].
    simpl in Hd. subst o. reflexivity.
  - unfold http. cbn [call translate run].
    change (RW_WriteHeader 404) with (RW_WriteHeader StatusNotFound).
    destruct (h _ (Http (RW_WriteHeader StatusNotFound)) w1) as [[] w2].
    reflexivity.
Qed.

Lemma HandleGetDoc_cases_witness :
  run (rest_handler renv_empty) (HandleGetDoc db_3f2a "a")
    (emptyResponse, emptyBucket)
  = (Done tt,
     ({| resp_status := Some 404; resp_headers := ∅; resp_body := "" |},
      emptyBucket),
     [Call (Db_Get db_3f2a "a"); Call (Http (RW_WriteHeader 404))]) /\
  exists msg,
    run (rest_handler renv_bad_rev) (HandleGetDoc db_3f2a "a")
      (emptyResponse, emptyBucket)
    = (Panicked msg, (emptyResponse, emptyBucket), [Call (Db_Get db_3f2a "a")]).
Proof.
  split.
  - exact (HandleGetDoc_cases db_3f2a "a" (Response * Bucket)
             (rest_handler renv_empty) (emptyResponse, emptyBucket)).
  - pose proof (HandleGetDoc_cases db_3f2a "a" (Response * Bucket)
                  (rest_handler renv_bad_rev) (emptyResponse, emptyBucket)) as H.
    cbn [rest_handler renv_bad_rev renv_Get] in H.
    replace (({["_rev" := JNum (inject_Z 1)]} : Body) !! "_rev")
      with (Some (JNum (inject_Z 1))) in H by (vm_compute; reflexivity).
    exact H.
Defined.

(** X28: local documents.  A successful DELETE writes nothing to the
    response, not even a status; a GET of a missing local document gives
    exactly [WriteHeader(404)]; a PUT whose body was read and stored
    ends with [WriteHeader(201)] and writes no body. *)
Theorem local_document_handlers
  (db : Database) (rq : Request) (docid : string)
  W (h : handler RestE W) (w : W) :
  (forall w1, h _ (Db_DeleteLocal db docid) w = (None, w1) ->
     run h (HandleDeleteLocalDoc db docid) w
       = (Done tt, w1, [Call (Db_DeleteLocal db docid)])) /\
  (forall w1, h _ (Db_GetLocal db docid) w = ((None, None), w1) ->
     run h (HandleGetLocalDoc db docid) w
       = (Done tt, (h _ (Http (RW_WriteHeader StatusNotFound)) w1).2,
          [Call (Db_GetLocal db docid);
           Call (Http (RW_WriteHeader StatusNotFound))])) /\
  (forall body w1 t1 w2,
     run (sub_handler (@Http) h) (readJSON rq) w = (Done (body, None), w1, t1) ->
     h _ (Db_PutLocal db docid body) w1 = (None, w2) ->
     run h (HandlePutLocalDoc db rq docid) w
       = (Done tt, (h _ (Http (RW_WriteHeader StatusCreated)) w2).2,
          (map (mapCall (@Http)) t1
             ++ [Call (Db_PutLocal db docid body);
                 Call (Http (RW_WriteHeader StatusCreated))])%list)).
Proof.
  split; [| split].
  - intros w1 Hd. unfold HandleDeleteLocalDoc.
    rewrite run_bind, run_call, Hd. reflexivity.
  - intros w1 Hg. unfold HandleGetLocalDoc.
    rewrite run_bind, run_call, Hg. cbn [fst snd].
    unfold http. cbn [call translate run].
    destruct (h _ (Http (RW_WriteHeader StatusNotFound)) w1) as [[] w2].
    reflexivity.
  - intros body w1 t1 w2 Hread Hput. unfold HandlePutLocalDoc.
    rewrite run_bind. unfold http at 1. rewrite run_translate, Hread.
    cbn [fst snd]. rewrite run_bind, run_call, Hput. cbn [fst snd].
    unfold http. cbn [call translate run].
    destruct (h _ (Http (RW_WriteHeader StatusCreated)) w2) as [[] w3].
    reflexivity.
Qed.

Lemma local_document_handlers_witness :
  run (rest_handler renv_empty) (HandleDeleteLocalDoc db_3f2a "checkpoint")
    (emptyResponse, emptyBucket)
  = (Done tt, (emptyResponse, emptyBucket),
     [Call (Db_DeleteLocal db_3f2a "checkpoint")]).
Proof.
  exact (proj1 (local_document_handlers db_3f2a rq_put "checkpoint"
                  (Response * Bucket) (rest_handler renv_empty)
                  (emptyResponse, emptyBucket)) _ eq_refl).
Defined.

(** X29: PUT on a database path.  The handler runs [CreateDatabase] on
    the first path segment; when that succeeds its only other call is
    [WriteHeader(201)]; when it fails the error is written and no 201
    follows. *)
Theorem NewRESTHandler_put_database
  (rt : GoRuntime) (ParseUint : string -> Z) (rq : HttpRequest)
  (c : ascii) (rest dbName : string)
  W (h : handler RestE W) (w w1 : W) (r : result Database)
  (t1 : list (callrec BucketE)) :
  Method rq = "PUT" ->
  URL_Path rq = String c rest ->
  dropTrailingEmpty (splitOn "/" rest) = [dbName] ->
  run (sub_handler (@Bucket_call) h) (CreateDatabase dbName) w = (Done r, w1, t1) ->
  match r with
  | Ok _ =>
      run h (NewRESTHandler rt ParseUint rq) w
        = (Done tt, (h _ (Http (RW_WriteHeader StatusCreated)) w1).2,
           (map (mapCall (@Bucket_call)) t1
              ++ [Call (Http (RW_WriteHeader StatusCreated))])%list)
  | Fail e =>
      run h (NewRESTHandler rt ParseUint rq) w
        = (Done tt, (run h (http (writeError (Some e))) w1).1.2,
           (map (mapCall (@Bucket_call)) t1
              ++ (run h (http (writeError (Some e))) w1).2)%list)
  end.
Proof.
  intros Hm Hp Hs Hc. unfold NewRESTHandler. rewrite Hp, Hs, Hm.
  cbn [String.eqb Ascii.eqb Bool.eqb length Nat.eqb andb].
  rewrite run_bind. unfold bucket. rewrite run_translate, Hc. cbn [fst snd].
  destruct r as [db | e].
  - unfold http. cbn [call translate run].
    destruct (h _ (Http (RW_WriteHeader StatusCreated)) w1) as [[] w2].
    reflexivity.
  - pose proof (run_http_writeError_calls (Some e) W h w1) as [Hd _].
    destruct (run h (http (writeError (Some e))) w1) as [[o w2] t].
    simpl in Hd. subst o. reflexivity.
Qed.

Lemma NewRESTHandler_put_database_witness :
  (run (rest_handler renv_empty)
     (NewRESTHandler runtime_example (fun _ => 0) (request "PUT" "/db"))
     (emptyResponse, emptyBucket)).1.1 = Done tt /\
  (run (rest_handler renv_empty)
     (NewRESTHandler runtime_example (fun _ => 0) (request "PUT" "/db"))
     (emptyResponse, bucket_db_a)).1
  = (Done tt,
     ({| resp_status := Some 412;
         resp_headers := {["Content-Type" := "application/json"]};
         resp_body := "{}" |}, bucket_db_a)).
Proof.
  split.
  - assert (Hc : exists w1 t1,
               run (sub_handler (@Bucket_call) (rest_handler renv_empty))
                 (CreateDatabase "db") (emptyResponse, emptyBucket)
               = (Done (Ok db_3f2a), w1, t1))
      by (eexists (_, _), _; vm_compute; reflexivity).
    destruct Hc as (w1 & t1 & Hc).
    rewrite (NewRESTHandler_put_database runtime_example (fun _ => 0)
               (request "PUT" "/db") "/" "db" "db" (Response * Bucket)
               (rest_handler renv_empty) _ w1 (Ok db_3f2a) t1
               eq_refl eq_refl eq_refl Hc).
    reflexivity.
  - assert (Hc : run (sub_handler (@Bucket_call) (rest_handler renv_empty))
                   (CreateDatabase "db") (emptyResponse, bucket_db_a)
                 = (Done (Fail (HTTPError 412 "Database already exists")),
                    (emptyResponse, bucket_db_a), [Call (Bucket_Get "cdb:db")]))
      by (vm_compute; reflexivity).
    rewrite (NewRESTHandler_put_database runtime_example (fun _ => 0)
               (request "PUT" "/db") "/" "db" "db" (Response * Bucket)
               (rest_handler renv_empty) _ _ _ _
               eq_refl eq_refl eq_refl Hc).
    vm_compute. reflexivity.
Defined.

Lemma all_slashes_no_segment (rest : string) :
  forallb (Ascii.eqb "/") (list_ascii_of_string rest) = true ->
  dropTrailingEmpty (splitOn "/" rest) = [].
Proof.
  induction rest as [| c rest IH]; [reflexivity |].
  cbn [list_ascii_of_string forallb splitOn].
  intros H. apply andb_true_iff in H as [Hc Hr].
  rewrite Ascii.eqb_sym in Hc. rewrite Hc.
  cbn [dropTrailingEmpty]. now rewrite (IH Hr).
Qed.

(** X30: the root.  A request whose path is empty makes the handler
    panic.  A path made of slashes only is the root: a GET runs exactly
    as [writeJSON] of the welcome object runs, which marshals it and
    then only produces the response; any other method gives exactly
    [WriteHeader(400)].  Neither the bucket nor the engine is called. *)
Theorem NewRESTHandler_root
  (rt : GoRuntime) (ParseUint : string -> Z) (rq : HttpRequest)
  W (h : handler RestE W) (w : W) :
  (URL_Path rq = "" ->
   exists msg, run h (NewRESTHandler rt ParseUint rq) w = (Panicked msg, w, [])) /\
  (forall c rest,
     URL_Path rq = String c rest ->
     forallb (Ascii.eqb "/") (list_ascii_of_string rest) = true ->
     (Method rq = "GET" ->
      run h (NewRESTHandler rt ParseUint rq) w
        = run h (http (writeJSON
                         (JObj (<["couchdb" := JStr "welcome"]>
                                {["version" := JStr "CouchGlue 0.0"]})))) w /\
      (run h (NewRESTHandler rt ParseUint rq) w).1.1 = Done tt /\
      Forall (fun c => responseCall c = true)
        (run h (NewRESTHandler rt ParseUint rq) w).2 /\
      exists t,
        (run h (NewRESTHandler rt ParseUint rq) w).2
          = Call (Http (Json_Marshal
                          (JObj (<["couchdb" := JStr "welcome"]>
                                 {["version" := JStr "CouchGlue 0.0"]}))))
            :: t) /\
     (Method rq <> "GET" ->
      run h (NewRESTHandler rt ParseUint rq) w
        = (Done tt, (h _ (Http (RW_WriteHeader StatusBadRequest)) w).2,
           [Call (Http (RW_WriteHeader StatusBadRequest))]))).
Proof.
  split.
  - intros Hp. unfold NewRESTHandler. rewrite Hp. eexists. reflexivity.
  - intros c rest Hp Hs. unfold NewRESTHandler.
    rewrite Hp, (all_slashes_no_segment _ Hs). unfold handleRoot. split.
    + intros ->. cbn [String.eqb Ascii.eqb Bool.eqb].
      split; [reflexivity |].
      destruct (run_http_writeJSON
                  (JObj (<["couchdb" := JStr "welcome"]>
                         {["version" := JStr "CouchGlue 0.0"]})) W h w)
        as (t & Hd & Ht).
      split; [exact Hd |]. split; [apply writeJSON_response_only |].
      exists t. exact Ht.
    + intros Hm. apply String.eqb_neq in Hm. rewrite Hm.
      unfold http. cbn [call translate run].
      destruct (h _ (Http (RW_WriteHeader StatusBadRequest)) w) as [[] w1].
      reflexivity.
Qed.

Lemma NewRESTHandler_root_witness :
  run (rest_handler renv_empty)
    (NewRESTHandler runtime_example (fun _ => 0) (request "POST" "//"))
    (emptyResponse, emptyBucket)
  = (Done tt,
     ({| resp_status := Some 400; resp_headers := ∅; resp_body := "" |},
      emptyBucket),
     [Call (Http (RW_WriteHeader StatusBadRequest))]).
Proof.
  apply (proj2 (proj2 (NewRESTHandler_root runtime_example (fun _ => 0)
                         (request "POST" "//") (Response * Bucket)
                         (rest_handler renv_empty) (emptyResponse, emptyBucket))
                  "/"%char "/" eq_refl eq_refl)).
  discriminate.
Defined.
